(** * session_benchmark.py: feed/fetch latency microbenchmarks of [tf.Session]

    A shallow embedding of
    [tensorflow/python/client/session_benchmark.py] (class
    [SessionBenchmark]) and the properties of its measurement procedure.

    The benchmark only orchestrates calls into numpy, TensorFlow and the
    clock.  Those calls are the external world of the embedding: every call
    is answered by an arbitrary environment, which may return a value or
    raise, and every call is written to a trace.  The methods of the class
    are programs of a small state-and-exception monad over that
    environment.

    Writing to standard output and the reporting sink behind
    [report_benchmark] are calls of that environment too: the trace shows
    the line or the record when the call completes, and the call with its
    exception when it raises.

    One thing is idealised: clock readings are exact rationals, so that
    [end_time - start_time] and [np.median] do not round. *)

From Stdlib Require Import ZArith QArith Qround List String Ascii Bool Lia.
From Stdlib Require Import DecimalString Sorting.Mergesort Orders.
From Stdlib Require Import Sorting.Permutation Lqa.
Import ListNotations.

Local Open Scope Z_scope.
Local Open Scope string_scope.

(** ** Python values and built-ins used by the benchmark *)

Module Py.

(** A Python [float].  Clock readings and their differences are finite
    and are kept as exact rationals; [NaN] is what [np.median] gives for
    an empty sample list. *)
Inductive pyfloat : Type :=
| Finite (q : Q)
| NaN.

(** The order [np.median] sorts its samples with. *)
Module QOrder <: TotalLeBool.
Definition t := Q.
Definition leb := Qle_bool.
Lemma leb_total : forall x y, leb x y = true \/ leb y x = true.
Proof.
  intros x y. unfold leb. rewrite !Qle_bool_iff.
  destruct (Qlt_le_dec x y) as [H | H]; [left; apply Qlt_le_weak, H | right; exact H].
Qed.
End QOrder.

Module QSort := Sort QOrder.

(** [np.mean] of a non-empty slice. *)
Definition mean (l : list Q) : Q :=
  fold_right Qplus 0%Q l / inject_Z (Z.of_nat (List.length l)).

(** [np.median(times)]: the middle element of the sorted samples when
    their number is odd, the mean of the two middle elements when it is
    even, and [nan] for an empty list. *)
Definition median (times : list Q) : pyfloat :=
  match times with
  | [] => NaN
  | _ :: _ =>
      let sorted := QSort.sort times in
      let n := List.length times in
      let mid := Nat.div n 2 in
      if Nat.even n
      then Finite (mean [nth (mid - 1) sorted 0%Q; nth mid sorted 0%Q])
      else Finite (nth mid sorted 0%Q)
  end.

(** *** The [%] string formatting operator *)

Inductive arg : Type :=
| PStr (s : string)
| PInt (z : Z)
| PFloat (x : pyfloat).

(** [%d] of an integer. *)
Definition str_d (z : Z) : string := NilZero.string_of_int (Z.to_int z).

(** [s.zfill(width)]: left-pads a digit string with zeros. *)
Fixpoint zeros (k : nat) (s : string) : string :=
  match k with
  | O => s
  | S k' => String "0" (zeros k' s)
  end.

Definition zfill (width : nat) (s : string) : string :=
  zeros (width - String.length s) s.

(** Rounds the non-negative rational [n / d] to the nearest integer,
    ties to even. *)
Definition round_half_even (n : Z) (d : positive) : Z :=
  let f := n / Zpos d in
  let r := n mod Zpos d in
  match 2 * r ?= Zpos d with
  | Lt => f
  | Gt => f + 1
  | Eq => if Z.even f then f else f + 1
  end.

(** [%f] of a float: six digits after the point. *)
Definition str_f (x : pyfloat) : string :=
  match x with
  | NaN => "nan"
  | Finite q =>
      let micro := round_half_even (Z.abs (Qnum q) * 1000000) (Qden q) in
      (if (Qnum q <? 0)%Z then "-" else "")
        ++ NilZero.string_of_uint (N.to_uint (Z.to_N (micro / 1000000)))
        ++ "."
        ++ zfill 6 (NilZero.string_of_uint (N.to_uint (Z.to_N (micro mod 1000000))))
  end.

(** [fmt % args] for the conversions [%s], [%d], [%f] and [%%].  [None]
    is the [TypeError] of a conversion that does not fit its argument or
    of a wrong number of arguments. *)
Fixpoint format (fmt : string) (args : list arg) : option string :=
  match fmt with
  | EmptyString => match args with [] => Some "" | _ :: _ => None end
  | String "%" (String c rest) =>
      if Ascii.eqb c "%" then option_map (String "%") (format rest args)
      else match args with
           | [] => None
           | a :: args' =>
               match (if Ascii.eqb c "s" then match a with PStr s => Some s | _ => None end
                      else if Ascii.eqb c "d" then match a with PInt z => Some (str_d z) | _ => None end
                      else if Ascii.eqb c "f" then match a with PFloat x => Some (str_f x) | _ => None end
                      else None) with
               | Some piece => option_map (append piece) (format rest args')
               | None => None
               end
           end
  | String c rest => if Ascii.eqb c "%" then None else option_map (String c) (format rest args)
  end.

End Py.

Import Py.
Local Open Scope list_scope.

(** ** The external world *)

(** Objects of numpy and TensorFlow are opaque to the benchmark, which only
    passes them on; they are handles chosen by the environment. *)
Inductive ndarray : Type := Array (id : nat).
Inductive graph : Type := Graph (id : nat).
Inductive tensor : Type := Tensor (id : nat).
Inductive variable : Type := Variable_ (id : nat).
Inductive session : Type := Session (id : nat).

(** The operations a fetch can name: [t.op] of a tensor and
    [v.initializer] of a variable are attribute reads. *)
Inductive operation : Type :=
| op (t : tensor)
| initializer (v : variable).

(** The first argument of [sess.run]. *)
Inductive fetch : Type :=
| FetchOp (o : operation)
| FetchVar (v : variable).

(** [feed_dict]: the placeholders with the arrays bound to them. *)
Definition feed_dict : Type := list (tensor * ndarray).

(** [tf.train.Server]; the benchmark reads only its [target]. *)
Record server : Type := Server { target : string }.

(** The record [report_benchmark] hands to the reporting sink. *)
Record report : Type := Report { iters : Z; wall_time : pyfloat; name : string }.

(** The calls the benchmark makes, indexed by the type of what they
    return. *)
Inductive call : Type -> Type :=
| np_random_rand (size : Z) : call ndarray
| astype_float32 (a : ndarray) : call ndarray
| tf_Graph : call graph
| as_default_enter (g : graph) : call unit
| as_default_exit (g : graph) : call unit
| tf_placeholder (shape : list Z) : call tensor
| tf_identity (p : tensor) : call tensor
| tf_random_normal (shape : list Z) : call tensor
| tf_Variable (init : tensor) : call variable
| tf_Session (tgt : string) : call session
| Session_enter (s : session) : call session
| Session_exit (s : session) : call unit
| Session_run (s : session) (f : fetch) (feed : feed_dict) : call (option ndarray)
| time_time : call Q
| Session_reset (tgt : string) : call unit
| create_local_server : call server
| sys_stdout_write (line : string) : call unit
| Benchmark_report (r : report) : call unit.

Section World.

(** The exceptions the environment can raise. *)
Variable E : Type.

(** What propagates out of a method: an exception of the environment, the
    [TypeError] of the [%] operator, or the [OverflowError] of [xrange]. *)
Inductive exn : Type :=
| Raised (e : E)
| TypeError
| OverflowError.

(** What the run leaves behind, in order: each external call with its
    answer, each line printed and each record reported. *)
Inductive event : Type :=
| Called {X : Type} (c : call X) (r : E + X)
| Printed (line : string)
| Reported (r : report).

Definition trace : Type := list event.

(** The environment: a state, an answer to every call, and the largest
    plain integer of its Python interpreter, [sys.maxint]. *)
Record World : Type := {
  state : Type;
  respond : forall X : Type, call X -> state -> (E + X) * state;
  maxint : Z
}.

Variable env : World.

(** *** The monad of the benchmark's methods *)

Definition M (A : Type) : Type := state env -> (exn + A) * state env * trace.

Definition ret {A : Type} (a : A) : M A := fun w => (inr a, w, []).

Definition bind {A B : Type} (m : M A) (k : A -> M B) : M B :=
  fun w =>
    match m w with
    | (inl e, w1, t1) => (inl e, w1, t1)
    | (inr a, w1, t1) =>
        match k a w1 with
        | (r, w2, t2) => (r, w2, (t1 ++ t2)%list)
        end
    end.

Definition raise {A : Type} (e : exn) : M A := fun w => (inl e, w, []).

(** A call that produces output.  When it completes the trace shows the
    output [ev]; when it raises, the trace shows the call and the
    exception propagates. *)
Definition output (c : call unit) (ev : event) : M unit :=
  fun w =>
    match respond env unit c w with
    | (inl e, w1) => (inl (Raised e), w1, [Called c (inl e)])
    | (inr _, w1) => (inr tt, w1, [ev])
    end.

(** An external call: the environment answers, the answer is logged, and
    an exception it raises propagates as it is. *)
Definition ext {X : Type} (c : call X) : M X :=
  fun w =>
    match respond env X c w with
    | (inl e, w1) => (inl (Raised e), w1, [Called c (inl e)])
    | (inr x, w1) => (inr x, w1, [Called c (inr x)])
    end.

(** [with mgr as x: body].  [__exit__] runs however the body ends; the
    context managers of TensorFlow return nothing from it, so an
    exception of the body is raised again, unless [__exit__] raises
    itself. *)
Definition with_ {A B : Type} (enter : M A) (exit : M unit) (body : A -> M B) : M B :=
  fun w =>
    match enter w with
    | (inl e, w1, t1) => (inl e, w1, t1)
    | (inr a, w1, t1) =>
        match body a w1 with
        | (r, w2, t2) =>
            match exit w2 with
            | (inl e, w3, t3) => (inl e, w3, (t1 ++ t2 ++ t3)%list)
            | (inr _, w3, t3) => (r, w3, (t1 ++ t2 ++ t3)%list)
            end
        end
    end.

(** [n] rounds of [body], with the list the body appends to. *)
Fixpoint iterate (n : nat) (body : list Q -> M (list Q)) (times : list Q) : M (list Q) :=
  match n with
  | O => ret times
  | S n' => bind (body times) (iterate n' body)
  end.

(** [for _ in xrange(n): body].  [xrange] of Python 2 takes a C long: it
    raises [OverflowError] for a count outside [-maxint - 1 .. maxint], and
    yields nothing for a count that is not positive. *)
Definition for_xrange (n : Z) (body : list Q -> M (list Q)) (times : list Q) : M (list Q) :=
  if ((- maxint env - 1 <=? n)%Z && (n <=? maxint env)%Z)%bool
  then iterate (Z.to_nat n) body times
  else raise OverflowError.

(** [print(fmt % args)]. *)
Definition print (fmt : string) (args : list arg) : M unit :=
  match format fmt args with
  | Some line => output (sys_stdout_write line) (Printed line)
  | None => raise TypeError
  end.

(** [self.report_benchmark(iters=..., wall_time=..., name=...)]. *)
Definition report_benchmark (iters : Z) (wall_time : pyfloat) (name : string) : M unit :=
  output (Benchmark_report (Report iters wall_time name))
         (Reported (Report iters wall_time name)).

End World.

Arguments Raised {E} e.
Arguments TypeError {E}.
Arguments OverflowError {E}.
Arguments Called {E X} c r.
Arguments Printed {E} line.
Arguments Reported {E} r.
Arguments state {E} w.
Arguments respond {E} w [X] c s.
Arguments maxint {E} w.
Arguments ret {E env A} a.
Arguments bind {E env A B} m k.
Arguments raise {E env A} e.
Arguments output {E env} c ev.
Arguments ext {E env X} c.
Arguments with_ {E env A B} enter exit body.
Arguments iterate {E env} n body times.
Arguments for_xrange {E env} n body times.
Arguments print {E env} fmt args.
Arguments report_benchmark {E env} iters wall_time name.

Declare Scope py_scope.
Delimit Scope py_scope with py.
Notation "x <- m ;; k" := (bind m (fun x => k))
  (at level 61, m at next level, right associativity) : py_scope.
Notation "m ;; k" := (bind m (fun _ => k))
  (at level 61, right associativity) : py_scope.
Local Open Scope py_scope.

(** ** The class [SessionBenchmark] *)

Section SessionBenchmark.

Context {E : Type} {env : World E}.

(** One iteration of the timed loop of both measurements. *)
Definition timed_run (sess : session) (f : fetch) (feed : feed_dict)
    (times : list Q) : M E env (list Q) :=
  start_time <- ext time_time ;;
  _ <- ext (Session_run sess f feed) ;;
  end_time <- ext time_time ;;
  ret (times ++ [end_time - start_time]%Q)%list.

Definition _benchmarkFeed (name : string) (target : string) (size iters : Z)
    : M E env unit :=
  a <- ext (np_random_rand size) ;;
  feed_val <- ext (astype_float32 a) ;;
  g <- ext tf_Graph ;;
  times <- with_ (ext (as_default_enter g)) (ext (as_default_exit g)) (fun _ =>
    p <- ext (tf_placeholder [size]) ;;
    i <- ext (tf_identity p) ;;
    let no_op := op i in
    s <- ext (tf_Session target) ;;
    with_ (ext (Session_enter s)) (ext (Session_exit s)) (fun sess =>
      _ <- ext (Session_run sess (FetchOp no_op) [(p, feed_val)]) ;;
      for_xrange iters (timed_run sess (FetchOp no_op) [(p, feed_val)]) [])) ;;
  print "%s %d %f" [PStr name; PInt size; PFloat (median times)] ;;
  report_benchmark iters (median times) name.

Definition _benchmarkFetch (name : string) (target : string) (size iters : Z)
    : M E env unit :=
  g <- ext tf_Graph ;;
  times <- with_ (ext (as_default_enter g)) (ext (as_default_exit g)) (fun _ =>
    init <- ext (tf_random_normal [size]) ;;
    v <- ext (tf_Variable init) ;;
    s <- ext (tf_Session target) ;;
    with_ (ext (Session_enter s)) (ext (Session_exit s)) (fun sess =>
      _ <- ext (Session_run sess (FetchOp (initializer v)) []) ;;
      _ <- ext (Session_run sess (FetchVar v) []) ;;
      for_xrange iters (timed_run sess (FetchVar v) []) [])) ;;
  print "%s %d %f" [PStr name; PInt size; PFloat (median times)] ;;
  report_benchmark iters (median times) name.

Definition benchmarkGrpcSession : M E env unit :=
  server <- ext create_local_server ;;
  _benchmarkFeed "benchmark_session_feed_grpc_4B"
                 (target server) 1 10000 ;;
  ext (Session_reset (target server)) ;;
  _benchmarkFeed "benchmark_session_feed_grpc_4MB"
                 (target server) (Z.shiftl 1 20) 100 ;;
  ext (Session_reset (target server)) ;;
  _benchmarkFetch "benchmark_session_fetch_grpc_4B"
                  (target server) 1 20000 ;;
  ext (Session_reset (target server)) ;;
  _benchmarkFetch "benchmark_session_fetch_grpc_4MB"
                  (target server) (Z.shiftl 1 20) 100 ;;
  ext (Session_reset (target server)).

Definition benchmarkDirectSession : M E env unit :=
  _benchmarkFeed "benchmark_session_feed_direct_4B"
                 "" 1 5000 ;;
  _benchmarkFeed "benchmark_session_feed_direct_4MB"
                 "" (Z.shiftl 1 20) 200 ;;
  _benchmarkFetch "benchmark_session_fetch_direct_4B"
                  "" 1 5000 ;;
  _benchmarkFetch "benchmark_session_fetch_direct_4MB"
                  "" (Z.shiftl 1 20) 100.

End SessionBenchmark.

(** ** What a trace shows *)

Section Observations.

Context {E : Type}.

Implicit Types (ev : event E) (tr : trace E).

(** The lines written to standard output. *)
Definition stdout tr : list string :=
  flat_map (fun ev => match ev with Printed line => [line] | _ => [] end) tr.

(** The records handed to the reporting sink. *)
Definition reports tr : list report :=
  flat_map (fun ev => match ev with Reported r => [r] | _ => [] end) tr.

(** The exceptions the environment raised. *)
Definition raised tr : list E :=
  flat_map (fun ev => match ev with
                      | Called _ (inl e) => [e]
                      | _ => []
                      end) tr.

(** The exceptions raised by the [__exit__] of a context manager. *)
Definition exit_raised tr : list E :=
  flat_map (fun ev => match ev with
                      | Called (Session_exit _) (inl e) => [e]
                      | Called (as_default_exit _) (inl e) => [e]
                      | _ => []
                      end) tr.

(** The exceptions raised by the reporting sink. *)
Definition report_raised tr : list E :=
  flat_map (fun ev => match ev with
                      | Called (Benchmark_report _) (inl e) => [e]
                      | _ => []
                      end) tr.

(** The reading of a completed [time.time()]. *)
Definition clock_reading ev : option Q :=
  match ev with
  | Called c r =>
      match c in call X return E + X -> option Q with
      | time_time => fun r => match r with inr t => Some t | inl _ => None end
      | _ => fun _ => None
      end r
  | _ => None
  end.

Definition is_clock ev : bool :=
  match ev with
  | Called time_time _ => true
  | _ => false
  end.

(** The arguments of a [sess.run], completed or not. *)
Definition run_of ev : option (session * fetch * feed_dict) :=
  match ev with
  | Called (Session_run s f feed) _ => Some (s, f, feed)
  | _ => None
  end.

Definition is_run ev : bool :=
  match run_of ev with Some _ => true | None => false end.

Definition completed ev : bool :=
  match ev with
  | Called _ (inl _) => false
  | _ => true
  end.

Definition runs tr : list (session * fetch * feed_dict) :=
  flat_map (fun ev => match run_of ev with Some r => [r] | None => [] end) tr.

(** A timed sample: a completed [sess.run] between two clock readings. *)
Definition sample_of (e0 e1 e2 : event E) : option Q :=
  match clock_reading e0, is_run e1 && completed e1, clock_reading e2 with
  | Some start_time, true, Some end_time => Some (end_time - start_time)%Q
  | _, _, _ => None
  end.

(** The elapsed times of the timed runs, in order. *)
Fixpoint samples tr : list Q :=
  match tr with
  | e0 :: tl =>
      match tl with
      | e1 :: e2 :: rest =>
          match sample_of e0 e1 e2 with
          | Some d => d :: samples rest
          | None => samples tl
          end
      | _ => samples tl
      end
  | [] => []
  end.

(** The [sess.run] calls that are not timed. *)
Fixpoint untimed_runs tr : list (session * fetch * feed_dict) :=
  match tr with
  | e0 :: tl =>
      match tl with
      | e1 :: e2 :: rest =>
          match sample_of e0 e1 e2 with
          | Some _ => untimed_runs rest
          | None => (runs [e0] ++ untimed_runs tl)%list
          end
      | _ => (runs [e0] ++ untimed_runs tl)%list
      end
  | [] => []
  end.

End Observations.

(** ** The two measurements *)

(** The two measurement methods, [_benchmarkFeed] and [_benchmarkFetch],
    take the same arguments; [measure] selects one of them. *)
Inductive measurement : Type := Feed | Fetch.

Definition measure {E : Type} {env : World E} (m : measurement)
  : string -> string -> Z -> Z -> M E env unit :=
  match m with
  | Feed => _benchmarkFeed
  | Fetch => _benchmarkFetch
  end.

(** The outcome and the trace of a method started in state [w]. *)
Definition run {E : Type} {env : World E} {A : Type} (m : M E env A) (w : state env)
  : (exn E + A) * trace E :=
  match m w with
  | (r, _, tr) => (r, tr)
  end.

(** ** The cases of a suite *)

(** The events that tell the benchmark cases of a suite apart: the graph a
    case builds, the session it opens, the record it reports, and the
    resets between cases. *)
Inductive milestone : Type :=
| Placeholder (shape : list Z)
| RandomNormal (shape : list Z)
| SessionOpened (tgt : string)
| Benchmarked (iters : Z) (name : string)
| Reset (tgt : string).

Section Milestones.

Context {E : Type}.

Definition milestone_of (ev : event E) : list milestone :=
  match ev with
  | Called (tf_placeholder shape) _ => [Placeholder shape]
  | Called (tf_random_normal shape) _ => [RandomNormal shape]
  | Called (tf_Session tgt) _ => [SessionOpened tgt]
  | Called (Session_reset tgt) _ => [Reset tgt]
  | Reported r => [Benchmarked (iters r) (name r)]
  | _ => []
  end.

Definition milestones (tr : trace E) : list milestone := flat_map milestone_of tr.

(** The calls that generate the payload of a feed. *)
Definition generations (tr : trace E) : list (event E) :=
  filter (fun ev => match ev with
                    | Called (np_random_rand _) _ => true
                    | Called (astype_float32 _) _ => true
                    | _ => false
                    end) tr.

End Milestones.

(** ** The suites, case by case *)

(** The milestones of a completed [benchmarkGrpcSession] whose server has
    target [t]. *)
Definition grpc_milestones (t : string) : list milestone :=
  [Placeholder [1]; SessionOpened t;
   Benchmarked 10000 "benchmark_session_feed_grpc_4B"; Reset t;
   Placeholder [1048576]; SessionOpened t;
   Benchmarked 100 "benchmark_session_feed_grpc_4MB"; Reset t;
   RandomNormal [1]; SessionOpened t;
   Benchmarked 20000 "benchmark_session_fetch_grpc_4B"; Reset t;
   RandomNormal [1048576]; SessionOpened t;
   Benchmarked 100 "benchmark_session_fetch_grpc_4MB"; Reset t].

(** The milestones of a completed [benchmarkDirectSession]. *)
Definition direct_milestones : list milestone :=
  [Placeholder [1]; SessionOpened "";
   Benchmarked 5000 "benchmark_session_feed_direct_4B";
   Placeholder [1048576]; SessionOpened "";
   Benchmarked 200 "benchmark_session_feed_direct_4MB";
   RandomNormal [1]; SessionOpened "";
   Benchmarked 5000 "benchmark_session_fetch_direct_4B";
   RandomNormal [1048576]; SessionOpened "";
   Benchmarked 100 "benchmark_session_fetch_direct_4MB"].

(** What a case measures: the graph it builds, that is the mode and the
    payload size. *)
Definition measured (ms : list milestone) : list milestone :=
  filter (fun m => match m with
                   | Placeholder _ | RandomNormal _ => true
                   | _ => false
                   end) ms.

(** The iteration counts of the cases. *)
Definition iterations (ms : list milestone) : list Z :=
  flat_map (fun m => match m with Benchmarked n _ => [n] | _ => [] end) ms.

(** The targets of the sessions opened. *)
Definition targets (ms : list milestone) : list string :=
  flat_map (fun m => match m with SessionOpened t => [t] | _ => [] end) ms.

(** The targets reset. *)
Definition resets (ms : list milestone) : list string :=
  flat_map (fun m => match m with Reset t => [t] | _ => [] end) ms.

(** The iteration count and the name of the records behind a list of
    milestones. *)
Definition benchmarks (ms : list milestone) : list (Z * string) :=
  flat_map (fun m => match m with Benchmarked n nm => [(n, nm)] | _ => [] end) ms.

(** ** A fake service *)

(** A scripted environment for concrete runs: the clock reads the next
    entry of a list (and 0 when the list is used up), every other call
    returns a handle, and the calls whose numbers are in [fail_at] raise. *)
Module Fake.

Record st : Type := St { clock : list Q; calls : nat; fail_at : list nat }.

Definition answer {X : Type} (c : call X) (w : st) : X * list Q :=
  match c in call X return X * list Q with
  | np_random_rand _ => (Array 0, clock w)
  | astype_float32 _ => (Array 1, clock w)
  | tf_Graph => (Graph 0, clock w)
  | as_default_enter _ => (tt, clock w)
  | as_default_exit _ => (tt, clock w)
  | tf_placeholder _ => (Tensor 0, clock w)
  | tf_identity _ => (Tensor 1, clock w)
  | tf_random_normal _ => (Tensor 2, clock w)
  | tf_Variable _ => (Variable_ 0, clock w)
  | tf_Session _ => (Session 0, clock w)
  | Session_enter s => (s, clock w)
  | Session_exit _ => (tt, clock w)
  | Session_run _ (FetchVar _) _ => (Some (Array 2), clock w)
  | Session_run _ (FetchOp _) _ => (None, clock w)
  | time_time => (hd 0%Q (clock w), tl (clock w))
  | Session_reset _ => (tt, clock w)
  | create_local_server => (Server "grpc://localhost:2222", clock w)
  | sys_stdout_write _ => (tt, clock w)
  | Benchmark_report _ => (tt, clock w)
  end.

(** The exception a call raises when it is scripted to fail. *)
Definition error {X : Type} (c : call X) : string :=
  match c with
  | Session_exit _ => "CancelledError"
  | sys_stdout_write _ => "IOError"
  | Benchmark_report _ => "IOError"
  | _ => "UnavailableError"
  end.

Definition handle (X : Type) (c : call X) (w : st) : (string + X) * st :=
  if existsb (Nat.eqb (calls w)) (fail_at w)
  then (inl (error c), St (clock w) (S (calls w)) (fail_at w))
  else let (x, clk) := answer c w in (inr x, St clk (S (calls w)) (fail_at w)).

(** The fake interpreter has the 64-bit [sys.maxint]. *)
Definition world : World string := Build_World string st handle 9223372036854775807.

(** A service that never fails, with the given clock readings. *)
Definition ticking (clock : list Q) : st := St clock 0 [].

(** A service whose [k]-th call (from 0) raises. *)
Definition failing (k : nat) : st := St [] 0 [k].


End Fake.

(** ** The shapes of traces *)

Section Shapes.

Context {E : Type}.

Section Timed.

Variables (sess : session) (f : fetch) (feed : feed_dict).

(** The trace of completed iterations, with the samples they record. *)
Inductive timed_trace : list Q -> trace E -> Prop :=
| timed_nil : timed_trace [] []
| timed_cons (start_time end_time : Q) (r : option ndarray) ds tr :
    timed_trace ds tr ->
    timed_trace ((end_time - start_time)%Q :: ds)
      (Called time_time (inr start_time)
         :: Called (Session_run sess f feed) (inr r)
         :: Called time_time (inr end_time) :: tr).

(** The trace of an iteration that a raising call cuts short. *)
Inductive cut_short (e : E) : trace E -> Prop :=
| cut_start : cut_short e [Called time_time (inl e)]
| cut_run (start_time : Q) :
    cut_short e [Called time_time (inr start_time);
                 Called (Session_run sess f feed) (inl e)]
| cut_end (start_time : Q) (r : option ndarray) :
    cut_short e [Called time_time (inr start_time);
                 Called (Session_run sess f feed) (inr r);
                 Called time_time (inl e)].

End Timed.

(** The trace of a measurement that ends with the exception [x].  No
    record was reported.  Nothing was printed either, unless it was
    [report_benchmark] that raised, the only call to raise, after the line
    was printed.  And [x] is the [OverflowError] of an [iters] that
    [xrange] does not take, when no call raised, or else the exception the
    environment raised last: the only one it raised, unless an [__exit__]
    raised while an exception was propagating. *)
Definition aborted (maxint iters : Z) (x : exn E) (tr : trace E) : Prop :=
  reports tr = []
  /\ (stdout tr = []
      \/ exists e, x = Raised e /\ raised tr = [e] /\ report_raised tr = [e]
                   /\ List.length (stdout tr) = 1%nat)
  /\ ((x = OverflowError /\ raised tr = []
       /\ (iters < - maxint - 1 \/ maxint < iters))
      \/ exists e, x = Raised e /\ last (map Some (raised tr)) None = Some e
                   /\ (raised tr = [e] \/ exit_raised tr <> [])).

(** The trace of a completed [_benchmarkFeed]. *)
Inductive feed_completed (name target : string) (size iters : Z) : trace E -> Prop :=
| feed_completed_intro a feed_val g p i s sess r ds loop line :
    List.length ds = Z.to_nat iters ->
    timed_trace sess (FetchOp (op i)) [(p, feed_val)] ds loop ->
    format "%s %d %f" [PStr name; PInt size; PFloat (median ds)] = Some line ->
    feed_completed name target size iters
      ([Called (np_random_rand size) (inr a);
        Called (astype_float32 a) (inr feed_val);
        Called tf_Graph (inr g);
        Called (as_default_enter g) (inr tt);
        Called (tf_placeholder [size]) (inr p);
        Called (tf_identity p) (inr i);
        Called (tf_Session target) (inr s);
        Called (Session_enter s) (inr sess);
        Called (Session_run sess (FetchOp (op i)) [(p, feed_val)]) (inr r)]
         ++ loop
         ++ [Called (Session_exit s) (inr tt);
             Called (as_default_exit g) (inr tt);
             Printed line;
             Reported (Report iters (median ds) name)]).

(** The trace of a completed [_benchmarkFetch]. *)
Inductive fetch_completed (name target : string) (size iters : Z) : trace E -> Prop :=
| fetch_completed_intro g init v s sess r1 r2 ds loop line :
    List.length ds = Z.to_nat iters ->
    timed_trace sess (FetchVar v) [] ds loop ->
    format "%s %d %f" [PStr name; PInt size; PFloat (median ds)] = Some line ->
    fetch_completed name target size iters
      ([Called tf_Graph (inr g);
        Called (as_default_enter g) (inr tt);
        Called (tf_random_normal [size]) (inr init);
        Called (tf_Variable init) (inr v);
        Called (tf_Session target) (inr s);
        Called (Session_enter s) (inr sess);
        Called (Session_run sess (FetchOp (initializer v)) []) (inr r1);
        Called (Session_run sess (FetchVar v) []) (inr r2)]
         ++ loop
         ++ [Called (Session_exit s) (inr tt);
             Called (as_default_exit g) (inr tt);
             Printed line;
             Reported (Report iters (median ds) name)]).

(** In a [_benchmarkFetch] no clock is read before the initializer and
    the warm-up fetch have completed. *)
Definition warmed_up (tr : trace E) : Prop :=
  forallb (fun ev => negb (is_clock ev)) tr = true
  \/ exists before sess v r1 r2 rest,
       forallb (fun ev => negb (is_clock ev) && negb (is_run ev)) before = true
       /\ tr = before
                 ++ [Called (Session_run sess (FetchOp (initializer v)) []) (inr r1);
                     Called (Session_run sess (FetchVar v) []) (inr r2)]
                 ++ rest.

End Shapes.

(** The line a measurement prints for the samples [ds]. *)
Definition line_of (name : string) (size : Z) (ds : list Q) : string :=
  (name ++ " " ++ str_d size ++ " " ++ str_f (median ds))%string.

(** A program that returns from every state in [healthy], into a state in
    [healthy]. *)
Definition completes {E : Type} {env : World E} (healthy : state env -> Prop)
    {A : Type} (m : M E env A) : Prop :=
  forall w, healthy w -> exists a w' tr, m w = (inr a, w', tr) /\ healthy w'.

(** ** Scopes and clock readings *)

(** What a trace shows of the two [with] blocks of a measurement: a context
    that was entered (for the session [s], with the session [sess] that
    [__enter__] returned), the [__exit__] that leaves it, and the
    [sess.run] calls in between, with the session they run on. *)
Inductive scope_event : Type :=
| GraphEntered (g : graph)
| GraphExited (g : graph)
| SessionEntered (s sess : session)
| SessionExited (s : session)
| Ran (sess : session).

Section Scopes.

Context {E : Type}.

Definition scope_of (ev : event E) : list scope_event :=
  match ev with
  | Called (as_default_enter g) (inr _) => [GraphEntered g]
  | Called (as_default_exit g) _ => [GraphExited g]
  | Called (Session_enter s) (inr sess) => [SessionEntered s sess]
  | Called (Session_exit s) _ => [SessionExited s]
  | Called (Session_run sess _ _) _ => [Ran sess]
  | _ => []
  end.

Definition scopes (tr : trace E) : list scope_event := flat_map scope_of tr.

(** The readings of the clock, in order. *)
Definition clock_readings (tr : trace E) : list Q :=
  flat_map (fun ev => match clock_reading ev with Some t => [t] | None => [] end) tr.

End Scopes.

(** A clock that does not run backwards: every reading is at least the one
    before it. *)
Fixpoint nondecreasing (ts : list Q) : Prop :=
  match ts with
  | t0 :: ((t1 :: _) as rest) => (t0 <= t1)%Q /\ nondecreasing rest
  | _ => True
  end.

(** The scopes of a measurement are properly nested: nothing was entered;
    or only the graph was made the default, and left again; or the session
    was entered inside the graph, all [sess.run] calls were made on the
    session its [__enter__] returned, and session and graph were left in
    that order. *)
Definition well_scoped {E : Type} (tr : trace E) : Prop :=
  scopes tr = []
  \/ (exists g, scopes tr = [GraphEntered g; GraphExited g])
  \/ (exists g s sess k,
        scopes tr = [GraphEntered g; SessionEntered s sess]
                      ++ repeat (Ran sess) k
                      ++ [SessionExited s; GraphExited g]).

(** * Proofs *)

(** ** Concrete runs *)

Example feed_run :
  run (env := Fake.world) (_benchmarkFeed "t" "" 1 3)
      (Fake.ticking [0; 1 # 2; 1; 11 # 10; 2; 23 # 10]%Q)
  = (inr tt,
     [Called (np_random_rand 1) (inr (Array 0));
      Called (astype_float32 (Array 0)) (inr (Array 1));
      Called tf_Graph (inr (Graph 0));
      Called (as_default_enter (Graph 0)) (inr tt);
      Called (tf_placeholder [1]) (inr (Tensor 0));
      Called (tf_identity (Tensor 0)) (inr (Tensor 1));
      Called (tf_Session "") (inr (Session 0));
      Called (Session_enter (Session 0)) (inr (Session 0));
      Called (Session_run (Session 0) (FetchOp (op (Tensor 1))) [(Tensor 0, Array 1)]) (inr None);
      Called time_time (inr 0%Q);
      Called (Session_run (Session 0) (FetchOp (op (Tensor 1))) [(Tensor 0, Array 1)]) (inr None);
      Called time_time (inr (1 # 2));
      Called time_time (inr 1%Q);
      Called (Session_run (Session 0) (FetchOp (op (Tensor 1))) [(Tensor 0, Array 1)]) (inr None);
      Called time_time (inr (11 # 10));
      Called time_time (inr 2%Q);
      Called (Session_run (Session 0) (FetchOp (op (Tensor 1))) [(Tensor 0, Array 1)]) (inr None);
      Called time_time (inr (23 # 10));
      Called (Session_exit (Session 0)) (inr tt);
      Called (as_default_exit (Graph 0)) (inr tt);
      Printed "t 1 0.300000";
      Reported (Report 3 (Finite (3 # 10)) "t")]).
Proof. vm_compute. reflexivity. Qed.

Example fetch_run_failing :
  run (env := Fake.world) (_benchmarkFetch "t" "" 1 2) (Fake.failing 10)
  = (inl (Raised "UnavailableError"),
     [Called tf_Graph (inr (Graph 0));
      Called (as_default_enter (Graph 0)) (inr tt);
      Called (tf_random_normal [1]) (inr (Tensor 2));
      Called (tf_Variable (Tensor 2)) (inr (Variable_ 0));
      Called (tf_Session "") (inr (Session 0));
      Called (Session_enter (Session 0)) (inr (Session 0));
      Called (Session_run (Session 0) (FetchOp (initializer (Variable_ 0))) []) (inr None);
      Called (Session_run (Session 0) (FetchVar (Variable_ 0)) []) (inr (Some (Array 2)));
      Called time_time (inr 0%Q);
      Called (Session_run (Session 0) (FetchVar (Variable_ 0)) []) (inr (Some (Array 2)));
      Called time_time (inl "UnavailableError");
      Called (Session_exit (Session 0)) (inr tt);
      Called (as_default_exit (Graph 0)) (inr tt)]).
Proof. vm_compute. reflexivity. Qed.

(** ** The timed loop *)

Section Loop.

Context {E : Type} {env : World E}.
Variables (sess : session) (f : fetch) (feed : feed_dict).

Lemma timed_run_outcome times w :
  match timed_run (env := env) sess f feed times w with
  | (inr times', _, tr) =>
      exists d, times' = (times ++ [d])%list /\ timed_trace sess f feed [d] tr
  | (inl x, _, tr) => exists e, x = Raised e /\ cut_short sess f feed e tr
  end.
Proof.
  unfold timed_run, bind, ext, ret.
  destruct (respond env time_time w) as [[e | t0] w1].
  { exists e. split; [reflexivity | constructor]. }
  destruct (respond env (Session_run sess f feed) w1) as [[e | r] w2].
  { exists e. split; [reflexivity | constructor]. }
  destruct (respond env time_time w2) as [[e | t1] w3].
  { exists e. split; [reflexivity | constructor]. }
  exists (t1 - t0)%Q. split; [reflexivity | repeat constructor].
Qed.

Lemma timed_trace_app (ds1 : list Q) (tr1 : trace E) (ds2 : list Q) (tr2 : trace E) :
  timed_trace sess f feed ds1 tr1 -> timed_trace sess f feed ds2 tr2 ->
  timed_trace sess f feed (ds1 ++ ds2) (tr1 ++ tr2).
Proof.
  induction 1 as [| t0 t1 r ds tr _ IH]; intros H2; simpl; [exact H2 |].
  constructor. apply IH, H2.
Qed.

(** The loop either completes [n] iterations, or completes some and is
    cut short in the next. *)
Lemma iterate_outcome n : forall times w,
  match iterate n (timed_run (env := env) sess f feed) times w with
  | (inr times', _, tr) =>
      exists ds, times' = (times ++ ds)%list /\ List.length ds = n
                 /\ timed_trace sess f feed ds tr
  | (inl x, _, tr) =>
      exists e ds tr1 tr2,
        x = Raised e /\ tr = (tr1 ++ tr2)%list
        /\ timed_trace sess f feed ds tr1 /\ cut_short sess f feed e tr2
  end.
Proof.
  induction n as [| n IH]; intros times w; simpl.
  - exists []. rewrite app_nil_r. repeat split. constructor.
  - unfold bind. pose proof (timed_run_outcome times w) as H1.
    destruct (timed_run sess f feed times w) as [[[x | times1] w1] tr1].
    + destruct H1 as (e & -> & Hc). exists e, [], [], tr1.
      repeat split; [constructor | exact Hc].
    + destruct H1 as (d & -> & Hd). specialize (IH (times ++ [d])%list w1).
      destruct (iterate n (timed_run sess f feed) (times ++ [d])%list w1)
        as [[[x | times2] w2] tr2].
      * destruct IH as (e & ds & ta & tb & -> & -> & Ht & Hc).
        exists e, (d :: ds), (tr1 ++ ta)%list, tb. rewrite app_assoc.
        repeat split; [| exact Hc]. apply (timed_trace_app [d] _ ds _ Hd Ht).
      * destruct IH as (ds & -> & Hlen & Ht). exists (d :: ds).
        rewrite <- app_assoc. simpl. repeat split; [lia |].
        apply (timed_trace_app [d] _ ds _ Hd Ht).
Qed.

(** A count that [xrange] does not take. *)
Lemma not_in_range (M n : Z) :
  ((- M - 1 <=? n)%Z && (n <=? M)%Z)%bool = false -> n < - M - 1 \/ M < n.
Proof.
  intros H. apply andb_false_iff in H. destruct H as [H | H]; apply Z.leb_gt in H; lia.
Qed.

End Loop.

(** ** Facts about traces *)

Section TraceFacts.

Context {E : Type}.
Implicit Types (tr : trace E).

Lemma stdout_app tr1 tr2 : stdout (tr1 ++ tr2) = stdout tr1 ++ stdout tr2.
Proof. apply flat_map_app. Qed.

Lemma reports_app tr1 tr2 : reports (tr1 ++ tr2) = reports tr1 ++ reports tr2.
Proof. apply flat_map_app. Qed.

Lemma raised_app tr1 tr2 : raised (tr1 ++ tr2) = raised tr1 ++ raised tr2.
Proof. apply flat_map_app. Qed.

Lemma runs_app tr1 tr2 : runs (tr1 ++ tr2) = runs tr1 ++ runs tr2.
Proof. apply flat_map_app. Qed.

Lemma milestones_app tr1 tr2 :
  milestones (tr1 ++ tr2) = milestones tr1 ++ milestones tr2.
Proof. apply flat_map_app. Qed.

Lemma exit_raised_app tr1 tr2 :
  exit_raised (tr1 ++ tr2) = exit_raised tr1 ++ exit_raised tr2.
Proof. apply flat_map_app. Qed.

Lemma generations_app tr1 tr2 :
  generations (tr1 ++ tr2) = generations tr1 ++ generations tr2.
Proof. apply filter_app. Qed.

(** An event that is no clock reading starts no sample. *)
Lemma samples_skip (ev : event E) tr :
  clock_reading ev = None -> samples (ev :: tr) = samples tr.
Proof.
  intros H. destruct tr as [| e1 [| e2 rest]]; try reflexivity.
  simpl. unfold sample_of. rewrite H. reflexivity.
Qed.

Lemma untimed_runs_skip (ev : event E) tr :
  clock_reading ev = None -> untimed_runs (ev :: tr) = runs [ev] ++ untimed_runs tr.
Proof.
  intros H. destruct tr as [| e1 [| e2 rest]]; try reflexivity.
  simpl. unfold sample_of. rewrite H. reflexivity.
Qed.

Section Timed.

Variables (sess : session) (f : fetch) (feed : feed_dict).

Lemma timed_trace_samples ds tr rest :
  timed_trace sess f feed ds tr -> samples (tr ++ rest) = ds ++ samples rest.
Proof.
  induction 1 as [| t0 t1 r ds tr _ IH]; [reflexivity |].
  simpl. rewrite IH. reflexivity.
Qed.

Lemma timed_trace_untimed ds tr rest :
  timed_trace sess f feed ds tr -> untimed_runs (tr ++ rest) = untimed_runs rest.
Proof.
  induction 1 as [| t0 t1 r ds tr _ IH]; [reflexivity |].
  simpl. exact IH.
Qed.

Lemma timed_trace_runs ds tr :
  timed_trace sess f feed ds tr ->
  runs tr = repeat (sess, f, feed) (List.length ds).
Proof.
  induction 1 as [| t0 t1 r ds tr _ IH]; [reflexivity |].
  simpl. f_equal. exact IH.
Qed.

Lemma timed_trace_quiet ds tr :
  timed_trace sess f feed ds tr ->
  stdout tr = [] /\ reports tr = [] /\ raised tr = [] /\ milestones tr = []
  /\ generations tr = [].
Proof.
  induction 1 as [| t0 t1 r ds tr _ IH]; [repeat split |].
  exact IH.
Qed.

Lemma timed_trace_no_exit ds tr :
  timed_trace sess f feed ds tr -> exit_raised tr = [].
Proof. induction 1 as [| t0 t1 r ds tr _ IH]; [reflexivity | exact IH]. Qed.

Lemma cut_short_no_exit (e : E) tr :
  cut_short sess f feed e tr -> exit_raised tr = [].
Proof. destruct 1; reflexivity. Qed.

Lemma timed_trace_no_report ds tr :
  timed_trace sess f feed ds tr -> report_raised tr = [].
Proof. induction 1 as [| t0 t1 r ds tr _ IH]; [reflexivity | exact IH]. Qed.

Lemma cut_short_no_report (e : E) tr :
  cut_short sess f feed e tr -> report_raised tr = [].
Proof. destruct 1; reflexivity. Qed.

Lemma cut_short_quiet (e : E) tr :
  cut_short sess f feed e tr ->
  stdout tr = [] /\ reports tr = [] /\ raised tr = [e] /\ milestones tr = [].
Proof. destruct 1; repeat split. Qed.

End Timed.

End TraceFacts.

(** ** The outcomes of a measurement *)

(** Case analysis on the answer of the next external call. *)
Ltac answer :=
  match goal with
  | |- context [respond ?env ?c ?w] =>
      let e := fresh "e" in
      let w' := fresh "w" in
      destruct (respond env c w) as [[e | ?] w']; cbv beta iota
  end.

(** Case analysis on whether [xrange] takes the count. *)
Ltac ranged :=
  match goal with
  | |- context [((?a <=? ?b)%Z && (?c <=? ?d)%Z)%bool] =>
      let H := fresh "Hrange" in
      destruct ((a <=? b)%Z && (c <=? d)%Z)%bool eqn:H; cbv beta iota
  end.

(** Case analysis on the outcome of the timed loop. *)
Ltac loop :=
  match goal with
  | |- context [iterate ?n (timed_run ?s ?f ?fd) ?t ?w] =>
      let H := fresh "Hloop" in
      pose proof (iterate_outcome s f fd n t w) as H;
      destruct (iterate n (timed_run s f fd) t w) as [[[? | ?] ?] ?]; cbv beta iota
  end.

Section Outcomes.

Context {E : Type} {env : World E}.

(** The line of a measurement always formats. *)
Lemma format_line (name : string) (size : Z) (x : pyfloat) :
  format "%s %d %f" [PStr name; PInt size; PFloat x]
  = Some (name ++ " " ++ str_d size ++ " " ++ str_f x)%string.
Proof.
  assert (Hnil : forall s : string, (s ++ "")%string = s)
    by (induction s as [| c s IH]; simpl; [reflexivity | rewrite IH; reflexivity]).
  cbn -[str_d str_f]. rewrite Hnil. reflexivity.
Qed.

(** Decides how a measurement was cut off, on a trace whose events are
    known. *)
Ltac abort_facts :=
  unfold aborted;
  split; [reflexivity |];
  split;
  [ first
      [ left; reflexivity
      | right; eexists;
        split; [reflexivity |]; split; [reflexivity |]; split; reflexivity ]
  | first
      [ left; split; [reflexivity |]; split; [reflexivity |];
        apply not_in_range; assumption
      | right; eexists;
        split; [reflexivity |]; split; [reflexivity |];
        first [ left; reflexivity | right; simpl; discriminate ] ] ].

(** Closes the case of a measurement cut off outside the timed loop. *)
Ltac abort_now :=
  split;
  [ abort_facts
  | first [ exists 0%nat; reflexivity
          | exists 1%nat; reflexivity
          | exists 2%nat; reflexivity ] ].

(** Closes the case of a call that raised in the timed loop. *)
Ltac abort_in_loop Ht Hc :=
  pose proof (timed_trace_no_exit _ _ _ _ _ Ht) as Ht5;
  pose proof (cut_short_no_exit _ _ _ _ _ Hc) as Hc5;
  pose proof (timed_trace_no_report _ _ _ _ _ Ht) as Ht6;
  pose proof (cut_short_no_report _ _ _ _ _ Hc) as Hc6;
  apply timed_trace_quiet in Ht; destruct Ht as (Ht1 & Ht2 & Ht3 & Ht4 & _);
  apply cut_short_quiet in Hc; destruct Hc as (Hc1 & Hc2 & Hc3 & Hc4);
  unfold aborted, stdout, reports, raised, milestones, exit_raised, report_raised in *;
  rewrite ?flat_map_app, ?Ht1, ?Ht2, ?Ht3, ?Ht4, ?Ht5, ?Ht6,
    ?Hc1, ?Hc2, ?Hc3, ?Hc4, ?Hc5, ?Hc6;
  abort_now.

(** Closes the case of a call that raised after the timed loop. *)
Ltac abort_after_loop Ht :=
  pose proof (timed_trace_no_exit _ _ _ _ _ Ht) as Ht5;
  pose proof (timed_trace_no_report _ _ _ _ _ Ht) as Ht6;
  apply timed_trace_quiet in Ht; destruct Ht as (Ht1 & Ht2 & Ht3 & Ht4 & _);
  unfold aborted, stdout, reports, raised, milestones, exit_raised, report_raised in *;
  rewrite ?flat_map_app, ?Ht1, ?Ht2, ?Ht3, ?Ht4, ?Ht5, ?Ht6;
  abort_now.

Lemma feed_outcome name target size iters w :
  match run (_benchmarkFeed (env := env) name target size iters) w with
  | (inr _, tr) => feed_completed name target size iters tr
  | (inl x, tr) =>
      aborted (maxint env) iters x tr
      /\ exists k, milestones tr = firstn k [Placeholder [size]; SessionOpened target]
  end.
Proof.
  unfold run, _benchmarkFeed, bind, with_, ext, for_xrange, raise.
  do 9 (answer; [repeat answer; abort_now |]).
  ranged; [| repeat answer; abort_now].
  loop.
  - destruct Hloop as (e0 & ds & tr1 & tr2 & -> & -> & Ht & Hc).
    repeat answer; abort_in_loop Ht Hc.
  - destruct Hloop as (ds & -> & Hlen & Ht).
    answer; [answer; abort_after_loop Ht |].
    answer; [abort_after_loop Ht |].
    unfold print. rewrite format_line. unfold output.
    answer; [abort_after_loop Ht |].
    unfold report_benchmark, output.
    answer; [abort_after_loop Ht |].
    destruct u, u0, u1. rewrite <- ?app_assoc. cbn [app].
    eapply feed_completed_intro; [exact Hlen | exact Ht | apply format_line].
Qed.

(** Shows that the clock is read only after initializer and warm-up. *)
Ltac warm :=
  rewrite <- ?app_assoc; cbn [app];
  first
    [ left; reflexivity
    | match goal with
      | |- warmed_up (?c1 :: ?c2 :: ?c3 :: ?c4 :: ?c5 :: ?c6
                        :: Called (Session_run ?sess _ _) (inr ?r1)
                        :: Called (Session_run _ (FetchVar ?v) _) (inr ?r2)
                        :: ?rest) =>
          right; exists [c1; c2; c3; c4; c5; c6], sess, v, r1, r2, rest;
          split; reflexivity
      end ].

Lemma fetch_outcome name target size iters w :
  match run (_benchmarkFetch (env := env) name target size iters) w with
  | (inr _, tr) => fetch_completed name target size iters tr
  | (inl x, tr) =>
      (aborted (maxint env) iters x tr
       /\ exists k, milestones tr = firstn k [RandomNormal [size]; SessionOpened target])
      /\ warmed_up tr
  end.
Proof.
  unfold run, _benchmarkFetch, bind, with_, ext, for_xrange, raise.
  do 8 (answer; [repeat answer; (split; [abort_now | warm]) |]).
  ranged; [| repeat answer; (split; [abort_now | warm])].
  loop.
  - destruct Hloop as (e0 & ds & tr1 & tr2 & -> & -> & Ht & Hc).
    repeat answer; (split; [abort_in_loop Ht Hc | warm]).
  - destruct Hloop as (ds & -> & Hlen & Ht).
    answer; [answer; (split; [abort_after_loop Ht | warm]) |].
    answer; [split; [abort_after_loop Ht | warm] |].
    unfold print. rewrite format_line. unfold output.
    answer; [split; [abort_after_loop Ht | warm] |].
    unfold report_benchmark, output.
    answer; [split; [abort_after_loop Ht | warm] |].
    destruct u, u0, u1. rewrite <- ?app_assoc. cbn [app].
    eapply fetch_completed_intro; [exact Hlen | exact Ht | apply format_line].
Qed.

Lemma fetch_completed_warmed_up name target size iters (tr : trace E) :
  fetch_completed name target size iters tr -> warmed_up tr.
Proof. destruct 1. warm. Qed.

End Outcomes.

(** ** What a completed measurement leaves in the trace *)

Section Completed.

Context {E : Type}.
Variables (name target : string) (size iters : Z).

Lemma before_clock (pre tr : trace E) :
  forallb (fun ev => negb (is_clock ev)) pre = true ->
  samples (pre ++ tr) = samples tr
  /\ untimed_runs (pre ++ tr) = runs pre ++ untimed_runs tr.
Proof.
  induction pre as [| ev pre IH]; intros H; [split; reflexivity |].
  simpl in H. apply andb_prop in H. destruct H as [Hev Hpre].
  assert (Hc : clock_reading ev = None).
  { destruct ev as [X c r | |]; try reflexivity. destruct c; try reflexivity.
    discriminate Hev. }
  destruct (IH Hpre) as [IH1 IH2]. simpl app.
  rewrite samples_skip, untimed_runs_skip by exact Hc.
  rewrite IH1, IH2. split; [reflexivity |].
  unfold runs. cbn [flat_map]. rewrite app_nil_r, app_assoc. reflexivity.
Qed.

Lemma samples_before_clock (pre tr : trace E) :
  forallb (fun ev => negb (is_clock ev)) pre = true ->
  samples (pre ++ tr) = samples tr.
Proof. intros H. apply before_clock, H. Qed.

Lemma untimed_before_clock (pre tr : trace E) :
  forallb (fun ev => negb (is_clock ev)) pre = true ->
  untimed_runs (pre ++ tr) = runs pre ++ untimed_runs tr.
Proof. intros H. apply before_clock, H. Qed.

Lemma feed_completed_samples (tr : trace E) :
  feed_completed name target size iters tr ->
  List.length (samples tr) = Z.to_nat iters
  /\ stdout tr = [line_of name size (samples tr)]
  /\ reports tr = [Report iters (median (samples tr)) name]
  /\ raised tr = [].
Proof.
  intros [a feed_val g p i s sess r ds loop line Hlen Ht Hline].
  rewrite format_line in Hline. injection Hline as <-.
  destruct (timed_trace_quiet _ _ _ _ _ Ht) as (H1 & H2 & H3 & _).
  rewrite samples_before_clock by reflexivity.
  rewrite (timed_trace_samples _ _ _ _ _ _ Ht). cbn [samples]. rewrite app_nil_r.
  rewrite !stdout_app, !reports_app, !raised_app, H1, H2, H3.
  repeat split; assumption.
Qed.

Lemma fetch_completed_samples (tr : trace E) :
  fetch_completed name target size iters tr ->
  List.length (samples tr) = Z.to_nat iters
  /\ stdout tr = [line_of name size (samples tr)]
  /\ reports tr = [Report iters (median (samples tr)) name]
  /\ raised tr = [].
Proof.
  intros [g init v s sess r1 r2 ds loop line Hlen Ht Hline].
  rewrite format_line in Hline. injection Hline as <-.
  destruct (timed_trace_quiet _ _ _ _ _ Ht) as (H1 & H2 & H3 & _).
  rewrite samples_before_clock by reflexivity.
  rewrite (timed_trace_samples _ _ _ _ _ _ Ht). cbn [samples]. rewrite app_nil_r.
  rewrite !stdout_app, !reports_app, !raised_app, H1, H2, H3.
  repeat split; assumption.
Qed.

(** The [sess.run] calls of a completed feed: the warm-up is the only
    untimed one, and all of them bind one payload to one placeholder. *)
Lemma feed_completed_runs (tr : trace E) :
  feed_completed name target size iters tr ->
  exists a feed_val p i sess rest,
    tr = Called (np_random_rand size) (inr a)
           :: Called (astype_float32 a) (inr feed_val) :: rest
    /\ generations rest = []
    /\ milestones rest = [Placeholder [size]; SessionOpened target;
                          Benchmarked iters name]
    /\ untimed_runs tr = [(sess, FetchOp (op i), [(p, feed_val)])]
    /\ runs tr = repeat (sess, FetchOp (op i), [(p, feed_val)])
                        (S (Z.to_nat iters)).
Proof.
  intros [a feed_val g p i s sess r ds loop line Hlen Ht Hline].
  destruct (timed_trace_quiet _ _ _ _ _ Ht) as (_ & _ & _ & H4 & H5).
  exists a, feed_val, p, i, sess.
  exists ([Called tf_Graph (inr g);
           Called (as_default_enter g) (inr tt);
           Called (tf_placeholder [size]) (inr p);
           Called (tf_identity p) (inr i);
           Called (tf_Session target) (inr s);
           Called (Session_enter s) (inr sess);
           Called (Session_run sess (FetchOp (op i)) [(p, feed_val)]) (inr r)]
            ++ loop
            ++ [Called (Session_exit s) (inr tt);
                Called (as_default_exit g) (inr tt);
                Printed line;
                Reported (Report iters (median ds) name)]).
  split; [reflexivity |].
  rewrite untimed_before_clock by reflexivity.
  rewrite (timed_trace_untimed _ _ _ _ _ _ Ht).
  rewrite !generations_app, !milestones_app, !runs_app, H4, H5.
  rewrite (timed_trace_runs _ _ _ _ _ Ht), Hlen.
  repeat split. cbn [runs flat_map run_of app].
  rewrite app_nil_r. reflexivity.
Qed.

(** The [sess.run] calls of a completed fetch: the initializer and the
    warm-up are untimed, and they come first. *)
Lemma fetch_completed_runs (tr : trace E) :
  fetch_completed name target size iters tr ->
  exists v sess,
    untimed_runs tr = [(sess, FetchOp (initializer v), []); (sess, FetchVar v, [])]
    /\ runs tr = (sess, FetchOp (initializer v), [])
                   :: repeat (sess, FetchVar v, []) (S (Z.to_nat iters))
    /\ milestones tr = [RandomNormal [size]; SessionOpened target;
                        Benchmarked iters name].
Proof.
  intros [g init v s sess r1 r2 ds loop line Hlen Ht Hline].
  destruct (timed_trace_quiet _ _ _ _ _ Ht) as (_ & _ & _ & H4 & _).
  exists v, sess.
  rewrite untimed_before_clock by reflexivity.
  rewrite (timed_trace_untimed _ _ _ _ _ _ Ht).
  rewrite !milestones_app, !runs_app, H4.
  rewrite (timed_trace_runs _ _ _ _ _ Ht), Hlen.
  repeat split. cbn [runs flat_map run_of app].
  rewrite app_nil_r. reflexivity.
Qed.

Lemma feed_completed_milestones (tr : trace E) :
  feed_completed name target size iters tr ->
  milestones tr = [Placeholder [size]; SessionOpened target; Benchmarked iters name].
Proof.
  intros H. destruct (feed_completed_runs tr H)
    as (a & feed_val & p & i & sess & rest & -> & _ & Hm & _).
  exact Hm.
Qed.

End Completed.

Section Measurements.

Context {E : Type} {env : World E}.
Variables (name target : string) (size iters : Z).

Lemma feed_completes (w : state env) (u : unit) (tr : trace E) :
  run (_benchmarkFeed name target size iters) w = (inr u, tr) ->
  feed_completed name target size iters tr.
Proof.
  intros H. pose proof (feed_outcome name target size iters w) as Ho.
  rewrite H in Ho. exact Ho.
Qed.

Lemma fetch_completes (w : state env) (u : unit) (tr : trace E) :
  run (_benchmarkFetch name target size iters) w = (inr u, tr) ->
  fetch_completed name target size iters tr.
Proof.
  intros H. pose proof (fetch_outcome name target size iters w) as Ho.
  rewrite H in Ho. exact Ho.
Qed.

(** Every measurement either completes, with all its samples taken, one
    line printed and one record reported, or ends with an exception, with
    nothing reported. *)
Lemma measure_outcome (m : measurement) (w : state env) :
  match run (measure m name target size iters) w with
  | (inr _, tr) =>
      List.length (samples tr) = Z.to_nat iters
      /\ stdout tr = [line_of name size (samples tr)]
      /\ reports tr = [Report iters (median (samples tr)) name]
      /\ raised tr = []
  | (inl x, tr) => aborted (maxint env) iters x tr
  end.
Proof.
  destruct m; simpl measure.
  - pose proof (feed_outcome name target size iters w) as Ho.
    destruct (run (_benchmarkFeed name target size iters) w) as [[x | u] tr].
    + apply Ho.
    + apply (feed_completed_samples name target size iters), Ho.
  - pose proof (fetch_outcome name target size iters w) as Ho.
    destruct (run (_benchmarkFetch name target size iters) w) as [[x | u] tr].
    + apply Ho.
    + apply (fetch_completed_samples name target size iters), Ho.
Qed.

Lemma measure_completed (m : measurement) (w : state env) (u : unit) (tr : trace E) :
  run (measure m name target size iters) w = (inr u, tr) ->
  List.length (samples tr) = Z.to_nat iters
  /\ stdout tr = [line_of name size (samples tr)]
  /\ reports tr = [Report iters (median (samples tr)) name]
  /\ raised tr = [].
Proof.
  intros H. pose proof (measure_outcome m w) as Ho. rewrite H in Ho. exact Ho.
Qed.

Lemma measure_untimed (m : measurement) (w : state env) (u : unit) (tr : trace E) :
  run (measure m name target size iters) w = (inr u, tr) ->
  List.length (untimed_runs tr) = match m with Feed => 1 | Fetch => 2 end%nat
  /\ List.length (runs tr)
     = (List.length (samples tr) + List.length (untimed_runs tr))%nat.
Proof.
  intros H. destruct (measure_completed m w u tr H) as (Hn & _).
  destruct m; simpl measure in H.
  - apply feed_completes in H.
    destruct (feed_completed_runs name target size iters tr H)
      as (a & feed_val & p & i & sess & rest & _ & _ & _ & Hu & Hr).
    rewrite Hu, Hr, Hn, repeat_length. simpl. split; [reflexivity | lia].
  - apply fetch_completes in H.
    destruct (fetch_completed_runs name target size iters tr H)
      as (v & sess & Hu & Hr & _).
    rewrite Hu, Hr, Hn. simpl. rewrite repeat_length. split; [reflexivity | lia].
Qed.

End Measurements.

Lemma median3 (a b c : Q) :
  (a == 1 # 2)%Q -> (b == 1 # 10)%Q -> (c == 3 # 10)%Q ->
  exists m, median [a; b; c] = Finite m /\ (m == 3 # 10)%Q.
Proof.
  intros Ha Hb Hc.
  assert (Hab : Qle_bool a b = false) by (rewrite Ha, Hb; reflexivity).
  assert (Hcb : Qle_bool c b = false) by (rewrite Hc, Hb; reflexivity).
  assert (Hca : Qle_bool c a = true) by (rewrite Hc, Ha; reflexivity).
  exists c. split; [| exact Hc].
  unfold median. cbn. rewrite Hab. cbn. rewrite Hcb, Hca. reflexivity.
Qed.

Section WarmUp.

Context {E : Type} {env : World E}.

Lemma fetch_warmed_up name target size iters (w : state env) :
  warmed_up (snd (run (_benchmarkFetch name target size iters) w)).
Proof.
  pose proof (fetch_outcome name target size iters w) as Ho.
  destruct (run (_benchmarkFetch name target size iters) w) as [[x | u] tr]; simpl.
  - apply Ho.
  - apply (fetch_completed_warmed_up name target size iters), Ho.
Qed.

(** A clock reading is not in a part of the trace without one. *)
Lemma clock_after_prefix (ev : event E) : forall before rest pre post : trace E,
  forallb (fun ev => negb (is_clock ev)) before = true ->
  before ++ rest = pre ++ ev :: post ->
  is_clock ev = true ->
  exists between, pre = before ++ between.
Proof.
  induction before as [| x before IH]; intros rest pre post Hb Heq Hev.
  - exists pre. reflexivity.
  - simpl in Hb. apply andb_prop in Hb. destruct Hb as [Hx Hb].
    destruct pre as [| y pre]; simpl in Heq; injection Heq as Hxy Heq.
    + subst x. rewrite Hev in Hx. discriminate Hx.
    + subst y. destruct (IH rest pre post Hb Heq Hev) as [between ->].
      exists between. reflexivity.
Qed.

End WarmUp.

(** ** Properties of the measurements *)

(** C2, as amended.  A completed measurement with [iters >= 1] reports the
    median of exactly [iters] timed samples and makes exactly [iters]
    timed [sess.run] calls.  Besides them [_benchmarkFeed] makes exactly one
    untimed [sess.run] call (the warm-up) and [_benchmarkFetch] exactly two
    (the initializer and the warm-up). *)
Theorem measurement_timed_and_untimed_runs
    (E : Type) (env : World E) (m : measurement) (name target : string)
    (size iters : Z) (w : state env) (tr : trace E) :
  1 <= iters ->
  run (measure m name target size iters) w = (inr tt, tr) ->
  Z.of_nat (List.length (samples tr)) = iters
  /\ reports tr = [Report iters (median (samples tr)) name]
  /\ List.length (untimed_runs tr) = match m with Feed => 1 | Fetch => 2 end%nat
  /\ List.length (runs tr)
     = (List.length (samples tr) + List.length (untimed_runs tr))%nat.
Proof.
  intros Hiters Hrun.
  destruct (measure_completed name target size iters m w tt tr Hrun) as (Hn & _ & Hr & _).
  destruct (measure_untimed name target size iters m w tt tr Hrun) as (Hu & Hruns).
  repeat split; try assumption. rewrite Hn. lia.
Qed.

Lemma measurement_timed_and_untimed_runs_witness :
  let tr := snd (run (env := Fake.world) (measure Fetch "t" "" 1 2)
                     (Fake.ticking [0; 1; 2; 5]%Q)) in
  Z.of_nat (List.length (samples tr)) = 2
  /\ reports tr = [Report 2 (median (samples tr)) "t"]
  /\ List.length (untimed_runs tr) = 2%nat
  /\ List.length (runs tr)
     = (List.length (samples tr) + List.length (untimed_runs tr))%nat.
Proof.
  apply (measurement_timed_and_untimed_runs string Fake.world Fetch "t" "" 1 2
           (Fake.ticking [0; 1; 2; 5]%Q)).
  - lia.
  - vm_compute. reflexivity.
Defined.

(** C2, as stated, fails for [_benchmarkFetch]: with one iteration against
    the fake service the call completes with one timed sample and two
    untimed [sess.run] calls, not one. *)
Lemma fetch_untimed_runs_counterexample :
  let (r, tr) := run (env := Fake.world) (measure Fetch "t" "" 1 1)
                     (Fake.ticking [0; 1]%Q) in
  r = inr tt
  /\ List.length (samples tr) = 1%nat
  /\ untimed_runs tr
     = [(Session 0, FetchOp (initializer (Variable_ 0)), []);
        (Session 0, FetchVar (Variable_ 0), [])]
  /\ List.length (untimed_runs tr) <> 1%nat.
Proof. vm_compute. repeat split. discriminate. Qed.

(** C3.  In every run of [_benchmarkFetch], completed or not, each reading
    of the clock comes after the completed [sess.run] of the initializer
    and the completed warm-up fetch of the same variable, which are the
    first two [sess.run] calls: no timed sample starts before them. *)
Theorem fetch_warm_up_before_timing
    (E : Type) (env : World E) (name target : string) (size iters : Z)
    (w : state env) (pre post : trace E) (ev : event E) :
  snd (run (_benchmarkFetch name target size iters) w) = pre ++ ev :: post ->
  is_clock ev = true ->
  exists before sess v r1 r2 between,
    pre = before
            ++ [Called (Session_run sess (FetchOp (initializer v)) []) (inr r1);
                Called (Session_run sess (FetchVar v) []) (inr r2)]
            ++ between
    /\ forallb (fun ev => negb (is_clock ev) && negb (is_run ev)) before = true.
Proof.
  intros Htr Hev.
  destruct (fetch_warmed_up name target size iters w) as [Hfree | Hwarm].
  - rewrite Htr, forallb_app in Hfree. simpl in Hfree. rewrite Hev in Hfree.
    apply andb_prop in Hfree. destruct Hfree as [_ Hfree]. discriminate Hfree.
  - destruct Hwarm as (before & sess & v & r1 & r2 & rest & Hb & Heq).
    rewrite Htr, app_assoc in Heq. symmetry in Heq.
    apply clock_after_prefix in Heq; [| | exact Hev].
    + destruct Heq as [between ->]. exists before, sess, v, r1, r2, between.
      rewrite <- app_assoc. split; [reflexivity | exact Hb].
    + rewrite forallb_app. apply andb_true_intro. split; [| reflexivity].
      rewrite forallb_forall in *. intros x Hx. apply Hb in Hx.
      apply andb_prop in Hx. apply Hx.
Qed.

Lemma fetch_warm_up_before_timing_witness :
  exists before sess v r1 r2 between,
    [Called tf_Graph (inr (Graph 0));
     Called (as_default_enter (Graph 0)) (inr tt);
     Called (tf_random_normal [1]) (inr (Tensor 2));
     Called (tf_Variable (Tensor 2)) (inr (Variable_ 0));
     Called (tf_Session "") (inr (Session 0));
     Called (Session_enter (Session 0)) (inr (Session 0));
     Called (Session_run (Session 0) (FetchOp (initializer (Variable_ 0))) []) (inr None);
     Called (Session_run (Session 0) (FetchVar (Variable_ 0)) []) (inr (Some (Array 2)))]
    = before
        ++ [Called (Session_run sess (FetchOp (initializer v)) []) (@inr string _ r1);
            Called (Session_run sess (FetchVar v) []) (inr r2)]
        ++ between
    /\ forallb (fun ev => negb (is_clock ev) && negb (is_run ev)) before = true.
Proof.
  apply (fetch_warm_up_before_timing string Fake.world "t" "" 1 1
           (Fake.ticking [3; 4]%Q) _
           [Called (Session_run (Session 0) (FetchVar (Variable_ 0)) []) (inr (Some (Array 2)));
            Called time_time (inr 4%Q);
            Called (Session_exit (Session 0)) (inr tt);
            Called (as_default_exit (Graph 0)) (inr tt);
            Printed "t 1 1.000000";
            Reported (Report 1 (Finite 1) "t")]
           (Called time_time (inr 3%Q))).
  - vm_compute. reflexivity.
  - reflexivity.
Defined.

(** C4.  [_benchmarkFeed("t", "", 1, 3)] against any service whose three
    timed executions take 0.5, 0.1 and 0.3 reports exactly one record, with
    median wall time 0.3 and [iters = 3]. *)
Theorem feed_scenario_median
    (E : Type) (env : World E) (w : state env) (tr : trace E) :
  run (_benchmarkFeed "t" "" 1 3) w = (inr tt, tr) ->
  Forall2 Qeq (samples tr) [1 # 2; 1 # 10; 3 # 10]%Q ->
  exists m, reports tr = [Report 3 (Finite m) "t"] /\ (m == 3 # 10)%Q.
Proof.
  intros Hrun Hs.
  destruct (measure_completed "t" "" 1 3 Feed w tt tr Hrun) as (_ & _ & Hr & _).
  rewrite Hr.
  inversion Hs as [| a x ds l Ha Hds]; subst. inversion Hds as [| b y ds' l' Hb Hds']; subst.
  inversion Hds' as [| c z ds'' l'' Hc Hnil]; subst. inversion Hnil; subst.
  destruct (median3 a b c Ha Hb Hc) as (m & -> & Hm).
  exists m. split; [reflexivity | exact Hm].
Qed.

Lemma feed_scenario_median_witness :
  exists m,
    reports (snd (run (env := Fake.world) (_benchmarkFeed "t" "" 1 3)
                      (Fake.ticking [0; 1 # 2; 1; 11 # 10; 2; 23 # 10]%Q)))
    = [Report 3 (Finite m) "t"] /\ (m == 3 # 10)%Q.
Proof.
  apply (feed_scenario_median string Fake.world
           (Fake.ticking [0; 1 # 2; 1; 11 # 10; 2; 23 # 10]%Q)).
  - vm_compute. reflexivity.
  - vm_compute. repeat constructor.
Defined.



(** C6.  A completed [_benchmarkFeed] generates its payload once, by the
    first two calls it makes ([np.random.rand] and [astype]), before the
    graph is built and the session opened; no later call generates a
    payload; and the warm-up run and every one of the [iters] timed runs
    bind that same array to the same tensor, the placeholder that
    [tf.placeholder] returned. *)
Theorem feed_payload_generated_once
    (E : Type) (env : World E) (name target : string) (size iters : Z)
    (w : state env) (tr : trace E) :
  run (_benchmarkFeed name target size iters) w = (inr tt, tr) ->
  exists a feed_val p no_op sess rest,
    tr = Called (np_random_rand size) (inr a)
           :: Called (astype_float32 a) (inr feed_val) :: rest
    /\ generations rest = []
    /\ In (Called (tf_placeholder [size]) (inr p)) rest
    /\ milestones rest = [Placeholder [size]; SessionOpened target;
                          Benchmarked iters name]
    /\ untimed_runs tr = [(sess, FetchOp no_op, [(p, feed_val)])]
    /\ List.length (samples tr) = Z.to_nat iters
    /\ runs tr = repeat (sess, FetchOp no_op, [(p, feed_val)]) (S (Z.to_nat iters)).
Proof.
  intros Hrun.
  destruct (measure_completed name target size iters Feed w tt tr Hrun) as (Hn & _).
  apply feed_completes in Hrun.
  destruct Hrun as [a feed_val g p i s sess r ds loop line Hlen Ht Hline].
  destruct (timed_trace_quiet _ _ _ _ _ Ht) as (_ & _ & _ & H4 & H5).
  exists a, feed_val, p, (op i), sess.
  exists ([Called tf_Graph (inr g);
           Called (as_default_enter g) (inr tt);
           Called (tf_placeholder [size]) (inr p);
           Called (tf_identity p) (inr i);
           Called (tf_Session target) (inr s);
           Called (Session_enter s) (inr sess);
           Called (Session_run sess (FetchOp (op i)) [(p, feed_val)]) (inr r)]
            ++ loop
            ++ [Called (Session_exit s) (inr tt);
                Called (as_default_exit g) (inr tt);
                Printed line;
                Reported (Report iters (median ds) name)]).
  split; [reflexivity |].
  split; [rewrite !generations_app, H5; reflexivity |].
  split; [apply in_or_app; left; simpl; tauto |].
  split; [rewrite !milestones_app, H4; reflexivity |].
  split.
  { rewrite untimed_before_clock by reflexivity.
    rewrite (timed_trace_untimed _ _ _ _ _ _ Ht). reflexivity. }
  split; [exact Hn |].
  rewrite !runs_app, (timed_trace_runs _ _ _ _ _ Ht), Hlen.
  cbn [runs flat_map run_of app]. rewrite app_nil_r. reflexivity.
Qed.

Lemma feed_payload_generated_once_witness :
  exists a feed_val p no_op sess rest,
    snd (run (env := Fake.world) (_benchmarkFeed "feed" "" 4 2) (Fake.ticking []))
    = Called (np_random_rand 4) (inr a)
        :: Called (astype_float32 a) (inr feed_val) :: rest
    /\ generations rest = []
    /\ In (Called (tf_placeholder [4]) (inr p)) rest
    /\ milestones rest = [Placeholder [4]; SessionOpened ""; Benchmarked 2 "feed"]
    /\ untimed_runs (snd (run (env := Fake.world) (_benchmarkFeed "feed" "" 4 2)
                              (Fake.ticking [])))
       = [(sess, FetchOp no_op, [(p, feed_val)])]
    /\ List.length (samples (snd (run (env := Fake.world)
                                      (_benchmarkFeed "feed" "" 4 2)
                                      (Fake.ticking [])))) = Z.to_nat 2
    /\ runs (snd (run (env := Fake.world) (_benchmarkFeed "feed" "" 4 2)
                      (Fake.ticking [])))
       = repeat (sess, FetchOp no_op, [(p, feed_val)]) (S (Z.to_nat 2)).
Proof.
  apply (feed_payload_generated_once string Fake.world "feed" "" 4 2 (Fake.ticking [])).
  vm_compute. reflexivity.
Defined.

(** C7.  Every completed measurement, feed or fetch, prints exactly one
    line: the name, the size as a decimal integer and the median of the
    samples in [%f] notation, separated by single spaces and with nothing
    after the median. *)
Theorem measurement_prints_one_line
    (E : Type) (env : World E) (m : measurement) (name target : string)
    (size iters : Z) (w : state env) (tr : trace E) :
  run (measure m name target size iters) w = (inr tt, tr) ->
  stdout tr
  = [(name ++ " " ++ str_d size ++ " " ++ str_f (median (samples tr)))%string].
Proof.
  intros Hrun.
  destruct (measure_completed name target size iters m w tt tr Hrun) as (_ & Hout & _).
  exact Hout.
Qed.

Lemma measurement_prints_one_line_witness :
  stdout (snd (run (env := Fake.world) (measure Fetch "fetch_4MB" "" (Z.shiftl 1 20) 3)
                   (Fake.ticking [0; 1 # 4; 1; 3 # 2; 2; 17 # 8]%Q)))
  = [("fetch_4MB" ++ " " ++ str_d (Z.shiftl 1 20) ++ " "
        ++ str_f (median (samples (snd (run (env := Fake.world)
                                            (measure Fetch "fetch_4MB" "" (Z.shiftl 1 20) 3)
                                            (Fake.ticking [0; 1 # 4; 1; 3 # 2; 2; 17 # 8]%Q))))))%string].
Proof.
  apply (measurement_prints_one_line string Fake.world Fetch "fetch_4MB" ""
           (Z.shiftl 1 20) 3 (Fake.ticking [0; 1 # 4; 1; 3 # 2; 2; 17 # 8]%Q)).
  vm_compute. reflexivity.
Defined.

Example fetch_line :
  stdout (snd (run (env := Fake.world) (measure Fetch "fetch_4MB" "" (Z.shiftl 1 20) 3)
                   (Fake.ticking [0; 1 # 4; 1; 3 # 2; 2; 17 # 8]%Q)))
  = ["fetch_4MB 1048576 0.250000"].
Proof. vm_compute. reflexivity. Qed.



(** C10.  In a completed measurement, feed or fetch, the median that is
    printed is the [wall_time] that is reported: both are the median of the
    recorded samples. *)
Theorem printed_median_is_reported
    (E : Type) (env : World E) (m : measurement) (name target : string)
    (size iters : Z) (w : state env) (tr : trace E) :
  run (measure m name target size iters) w = (inr tt, tr) ->
  exists x,
    x = median (samples tr)
    /\ stdout tr = [(name ++ " " ++ str_d size ++ " " ++ str_f x)%string]
    /\ reports tr = [Report iters x name].
Proof.
  intros Hrun.
  destruct (measure_completed name target size iters m w tt tr Hrun) as (_ & Hout & Hr & _).
  exists (median (samples tr)). repeat split; assumption.
Qed.

Lemma printed_median_is_reported_witness :
  exists x,
    x = median (samples (snd (run (env := Fake.world) (measure Feed "t" "" 1 4)
                                  (Fake.ticking [0; 1; 2; 5; 7; 8; 10; 14]%Q))))
    /\ stdout (snd (run (env := Fake.world) (measure Feed "t" "" 1 4)
                        (Fake.ticking [0; 1; 2; 5; 7; 8; 10; 14]%Q)))
       = [("t" ++ " " ++ str_d 1 ++ " " ++ str_f x)%string]
    /\ reports (snd (run (env := Fake.world) (measure Feed "t" "" 1 4)
                         (Fake.ticking [0; 1; 2; 5; 7; 8; 10; 14]%Q)))
       = [Report 4 x "t"].
Proof.
  apply (printed_median_is_reported string Fake.world Feed "t" "" 1 4
           (Fake.ticking [0; 1; 2; 5; 7; 8; 10; 14]%Q)).
  vm_compute. reflexivity.
Defined.

(** ** Runs against a service that does not fail *)

Section Quiet.

Context {E : Type} {env : World E}.

(** The states from which no call raises. *)
Variable healthy : state env -> Prop.

Hypothesis healthy_respond : forall (X : Type) (c : call X) (w : state env),
  healthy w -> exists x w', respond env c w = (inr x, w') /\ healthy w'.

Lemma completes_ret {A : Type} (a : A) : completes healthy (ret a).
Proof. intros w Hw. exists a, w, []. split; [reflexivity | exact Hw]. Qed.

Lemma completes_bind {A B : Type} (m : M E env A) (k : A -> M E env B) :
  completes healthy m -> (forall a, completes healthy (k a)) -> completes healthy (bind m k).
Proof.
  intros Hm Hk w Hw. unfold bind.
  destruct (Hm w Hw) as (a & w1 & t1 & -> & Hw1).
  destruct (Hk a w1 Hw1) as (b & w2 & t2 & -> & Hw2).
  exists b, w2, (t1 ++ t2). split; [reflexivity | exact Hw2].
Qed.

Lemma completes_ext {X : Type} (c : call X) : completes healthy (ext c).
Proof.
  intros w Hw. unfold ext.
  destruct (healthy_respond X c w Hw) as (x & w1 & -> & Hw1).
  exists x, w1, [Called c (inr x)]. split; [reflexivity | exact Hw1].
Qed.

Lemma completes_with {A B : Type} (enter : M E env A) (exit : M E env unit)
    (body : A -> M E env B) :
  completes healthy enter -> completes healthy exit -> (forall a, completes healthy (body a)) ->
  completes healthy (with_ enter exit body).
Proof.
  intros He Hx Hb w Hw. unfold with_.
  destruct (He w Hw) as (a & w1 & t1 & -> & Hw1).
  destruct (Hb a w1 Hw1) as (b & w2 & t2 & -> & Hw2).
  destruct (Hx w2 Hw2) as (u & w3 & t3 & -> & Hw3).
  exists b, w3, (t1 ++ t2 ++ t3). split; [reflexivity | exact Hw3].
Qed.

Lemma completes_output (c : call unit) (ev : event E) : completes healthy (output c ev).
Proof.
  intros w Hw. unfold output.
  destruct (healthy_respond unit c w Hw) as (x & w1 & -> & Hw1).
  exists tt, w1, [ev]. split; [reflexivity | exact Hw1].
Qed.

Lemma completes_iterate (body : list Q -> M E env (list Q)) :
  (forall times, completes healthy (body times)) ->
  forall n times, completes healthy (iterate n body times).
Proof.
  intros Hb. induction n as [| n IH]; intros times; simpl.
  - apply completes_ret.
  - apply completes_bind; [apply Hb | intros times'; apply IH].
Qed.

Lemma completes_for_xrange (body : list Q -> M E env (list Q)) (n : Z) :
  - maxint env - 1 <= n <= maxint env ->
  (forall times, completes healthy (body times)) ->
  forall times, completes healthy (for_xrange n body times).
Proof.
  intros Hn Hb times. unfold for_xrange.
  replace ((- maxint env - 1 <=? n)%Z && (n <=? maxint env)%Z)%bool with true.
  - apply completes_iterate, Hb.
  - symmetry. apply andb_true_intro. split; apply Z.leb_le; lia.
Qed.

(** A measurement completes against a healthy environment when [xrange]
    takes its number of iterations. *)
Lemma completes_measure (m : measurement) name target size iters :
  - maxint env - 1 <= iters <= maxint env ->
  completes healthy (measure m name target size iters).
Proof.
  intros Hiters.
  destruct m; unfold measure, _benchmarkFeed, _benchmarkFetch, timed_run, print,
    report_benchmark;
    rewrite ?format_line;
    repeat first
      [ apply completes_ext
      | apply completes_ret
      | apply completes_output
      | apply completes_for_xrange; [exact Hiters | intros ?]
      | apply completes_bind; [| intros ?]
      | apply completes_with; [| | intros ?]
      | (intros ? ?; rewrite format_line; apply completes_output; assumption) ].
Qed.

Lemma completes_benchmarkDirectSession :
  20000 <= maxint env -> completes healthy benchmarkDirectSession.
Proof.
  intros Hmax. unfold benchmarkDirectSession.
  repeat first
    [ apply (completes_measure Feed); lia
    | apply (completes_measure Fetch); lia
    | apply completes_bind; [| intros ?] ].
Qed.

Lemma completes_benchmarkGrpcSession :
  20000 <= maxint env -> completes healthy benchmarkGrpcSession.
Proof.
  intros Hmax. unfold benchmarkGrpcSession.
  repeat first
    [ apply (completes_measure Feed); lia
    | apply (completes_measure Fetch); lia
    | apply completes_ext
    | apply completes_bind; [| intros ?] ].
Qed.

End Quiet.

(** The fake service does not fail when no failure is scripted. *)
Lemma fake_healthy (X : Type) (c : call X) (w : state Fake.world) :
  Fake.fail_at w = [] ->
  exists x w', respond Fake.world c w = (inr x, w') /\ Fake.fail_at w' = [].
Proof.
  intros H. destruct w as [clk k fl]. simpl in H. subst fl.
  unfold respond, Fake.world, Fake.handle. simpl.
  destruct (Fake.answer c {| Fake.clock := clk; Fake.calls := k; Fake.fail_at := [] |})
    as [x clk'].
  eexists _, _. split; reflexivity.
Qed.

(** ** The outcomes of the suites *)

Section Suites.

Context {E : Type} {env : World E}.

Ltac prefix_search :=
  first [ exists 0%nat; reflexivity | exists 1%nat; reflexivity
        | exists 2%nat; reflexivity | exists 3%nat; reflexivity
        | exists 4%nat; reflexivity | exists 5%nat; reflexivity
        | exists 6%nat; reflexivity | exists 7%nat; reflexivity
        | exists 8%nat; reflexivity | exists 9%nat; reflexivity
        | exists 10%nat; reflexivity | exists 11%nat; reflexivity
        | exists 12%nat; reflexivity | exists 13%nat; reflexivity
        | exists 14%nat; reflexivity | exists 15%nat; reflexivity
        | exists 16%nat; reflexivity ].

(** Case analysis on the outcome of the next measurement of a suite;
    leaves the case in which it completed. *)
Ltac case_of_suite :=
  match goal with
  | |- context [@_benchmarkFeed ?E ?env ?n ?t ?s ?i ?w] =>
      let Ho := fresh "Ho" in
      pose proof (feed_outcome (env := env) n t s i w) as Ho; unfold run in Ho;
      destruct (@_benchmarkFeed E env n t s i w) as [[[? | ?] ?] ?]; cbv beta iota;
      [ destruct Ho as [_ [k Ho]]
      | apply feed_completed_milestones in Ho ]
  | |- context [@_benchmarkFetch ?E ?env ?n ?t ?s ?i ?w] =>
      let Ho := fresh "Ho" in
      pose proof (fetch_outcome (env := env) n t s i w) as Ho; unfold run in Ho;
      destruct (@_benchmarkFetch E env n t s i w) as [[[? | ?] ?] ?]; cbv beta iota;
      [ destruct Ho as [[_ [k Ho]] _]
      | apply fetch_completed_runs in Ho; destruct Ho as (? & ? & _ & _ & Ho) ]
  end.

(** Closes the case of a suite cut off by an exception. *)
Ltac cut_off :=
  rewrite ?milestones_app;
  repeat match goal with H : milestones _ = _ |- _ => rewrite H; clear H end;
  try match goal with
      | k : nat |- _ => destruct k as [| [| k]]; cbn [firstn]; rewrite ?firstn_nil
      end;
  prefix_search.

Lemma direct_outcome (w : state env) :
  match run (benchmarkDirectSession (env := env)) w with
  | (inr _, tr) => milestones tr = direct_milestones
  | (inl _, tr) => exists k, milestones tr = firstn k direct_milestones
  end.
Proof.
  unfold run, benchmarkDirectSession, bind.
  do 4 (case_of_suite; [cut_off |]).
  rewrite ?milestones_app.
  repeat match goal with H : milestones _ = _ |- _ => rewrite H; clear H end.
  reflexivity.
Qed.

Lemma grpc_outcome (w : state env) :
  match run (benchmarkGrpcSession (env := env)) w with
  | (inr _, tr) =>
      exists srv rest,
        tr = Called create_local_server (inr srv) :: rest
        /\ milestones rest = grpc_milestones (target srv)
  | (inl _, tr) => exists t k, milestones tr = firstn k (grpc_milestones t)
  end.
Proof.
  unfold run, benchmarkGrpcSession, bind, ext.
  answer; [exists "", 0%nat; reflexivity |].
  do 4 (case_of_suite; [exists (target s); cut_off |];
        answer; [exists (target s); cut_off |]).
  exists s. eexists. split; [reflexivity |].
  rewrite ?milestones_app.
  repeat match goal with H : milestones _ = _ |- _ => rewrite H; clear H end.
  reflexivity.
Qed.

Ltac strict_prefix_search :=
  first [ exists 0%nat; split; [lia | reflexivity]
        | exists 1%nat; split; [lia | reflexivity]
        | exists 2%nat; split; [lia | reflexivity]
        | exists 3%nat; split; [lia | reflexivity]
        | exists 4%nat; split; [lia | reflexivity]
        | exists 5%nat; split; [lia | reflexivity]
        | exists 6%nat; split; [lia | reflexivity]
        | exists 7%nat; split; [lia | reflexivity]
        | exists 8%nat; split; [lia | reflexivity]
        | exists 9%nat; split; [lia | reflexivity]
        | exists 10%nat; split; [lia | reflexivity]
        | exists 11%nat; split; [lia | reflexivity] ].

(** A local suite that is cut off has not reached the report of its last
    case. *)
Lemma direct_cut_off (w : state env) :
  match run (benchmarkDirectSession (env := env)) w with
  | (inr _, tr) => milestones tr = direct_milestones
  | (inl _, tr) =>
      exists k, (k < 12)%nat /\ milestones tr = firstn k direct_milestones
  end.
Proof.
  unfold run, benchmarkDirectSession, bind.
  do 4 (case_of_suite;
        [ rewrite ?milestones_app;
          repeat match goal with H : milestones _ = _ |- _ => rewrite H; clear H end;
          destruct k as [| [| k]]; cbn [firstn]; rewrite ?firstn_nil;
          strict_prefix_search |]).
  rewrite ?milestones_app.
  repeat match goal with H : milestones _ = _ |- _ => rewrite H; clear H end.
  reflexivity.
Qed.

(** Every run of the remote suite, completed or not: either the server
    could not be created and nothing else was done, or the milestones that
    follow are a prefix of those of a completed run on that server's
    target. *)
Lemma grpc_on_server (w : state env) :
  match run (benchmarkGrpcSession (env := env)) w with
  | (_, tr) =>
      (exists e, tr = [Called create_local_server (inl e)])
      \/ exists srv rest,
           tr = Called create_local_server (inr srv) :: rest
           /\ exists k, milestones rest = firstn k (grpc_milestones (target srv))
  end.
Proof.
  unfold run, benchmarkGrpcSession, bind, ext.
  answer; [left; eexists; reflexivity |].
  do 4 (case_of_suite;
        [right; exists s; eexists; split; [reflexivity | cut_off] |];
        answer; [right; exists s; eexists; split; [reflexivity | cut_off] |]).
  right. exists s. eexists. split; [reflexivity |].
  exists 16%nat. rewrite ?milestones_app.
  repeat match goal with H : milestones _ = _ |- _ => rewrite H; clear H end.
  reflexivity.
Qed.

End Suites.

(** ** Properties of the suites *)

Lemma run_completes {E : Type} {env : World E} {A : Type} (m : M E env A)
    (w w' : state env) (a : A) (tr : trace E) :
  m w = (inr a, w', tr) -> run m w = (inr a, tr).
Proof. intros H. unfold run. rewrite H. reflexivity. Qed.

(** Both suites complete against the fake service. *)
Lemma fake_direct_completes :
  exists tr,
    run (env := Fake.world) benchmarkDirectSession (Fake.ticking []) = (inr tt, tr).
Proof.
  assert (Hmax : 20000 <= maxint Fake.world) by (simpl; lia).
  destruct (completes_benchmarkDirectSession (env := Fake.world)
              (fun w => Fake.fail_at w = [])
              fake_healthy Hmax (Fake.ticking []) eq_refl) as ([] & w' & tr & H & _).
  exists tr. apply (run_completes _ _ _ _ _ H).
Qed.

Lemma fake_grpc_completes :
  exists tr,
    run (env := Fake.world) benchmarkGrpcSession (Fake.ticking []) = (inr tt, tr).
Proof.
  assert (Hmax : 20000 <= maxint Fake.world) by (simpl; lia).
  destruct (completes_benchmarkGrpcSession (env := Fake.world)
              (fun w => Fake.fail_at w = [])
              fake_healthy Hmax (Fake.ticking []) eq_refl) as ([] & w' & tr & H & _).
  exists tr. apply (run_completes _ _ _ _ _ H).
Qed.

Lemma direct_completed {E : Type} {env : World E} (w : state env) (tr : trace E) :
  run (benchmarkDirectSession (env := env)) w = (inr tt, tr) ->
  milestones tr = direct_milestones.
Proof. intros H. pose proof (direct_outcome w) as Ho. rewrite H in Ho. exact Ho. Qed.

Lemma grpc_completed {E : Type} {env : World E} (w : state env) (tr : trace E) :
  run (benchmarkGrpcSession (env := env)) w = (inr tt, tr) ->
  exists t, milestones tr = grpc_milestones t.
Proof.
  intros H. pose proof (grpc_outcome w) as Ho. rewrite H in Ho.
  destruct Ho as (srv & rest & -> & Hm). exists (target srv). exact Hm.
Qed.

(** C1, as amended.  When both suites complete, [benchmarkDirectSession]
    measures what [benchmarkGrpcSession] measures, in the same order (a
    feed of 1 element, a feed of 2^20 elements, a fetch of 1 element and a
    fetch of 2^20 elements), opens every session with the empty target and
    resets nothing; but it runs its own numbers of iterations, 5000 and 200
    for the feeds and 5000 and 100 for the fetches, where the remote suite
    runs 10000 and 100 for the feeds and 20000 and 100 for the fetches. *)
Theorem direct_suite_cases
    (E1 E2 : Type) (env1 : World E1) (env2 : World E2)
    (w1 : state env1) (w2 : state env2) (direct : trace E1) (grpc : trace E2) :
  run benchmarkDirectSession w1 = (inr tt, direct) ->
  run benchmarkGrpcSession w2 = (inr tt, grpc) ->
  measured (milestones direct) = measured (milestones grpc)
  /\ measured (milestones direct)
     = [Placeholder [1]; Placeholder [Z.shiftl 1 20];
        RandomNormal [1]; RandomNormal [Z.shiftl 1 20]]
  /\ targets (milestones direct) = [""; ""; ""; ""]
  /\ resets (milestones direct) = []
  /\ iterations (milestones direct) = [5000; 200; 5000; 100]
  /\ iterations (milestones grpc) = [10000; 100; 20000; 100].
Proof.
  intros Hd Hg. rewrite (direct_completed w1 direct Hd).
  destruct (grpc_completed w2 grpc Hg) as [t ->].
  repeat split.
Qed.

Lemma direct_suite_cases_witness :
  exists direct grpc : trace string,
    measured (milestones direct) = measured (milestones grpc)
    /\ measured (milestones direct)
       = [Placeholder [1]; Placeholder [Z.shiftl 1 20];
          RandomNormal [1]; RandomNormal [Z.shiftl 1 20]]
    /\ targets (milestones direct) = [""; ""; ""; ""]
    /\ resets (milestones direct) = []
    /\ iterations (milestones direct) = [5000; 200; 5000; 100]
    /\ iterations (milestones grpc) = [10000; 100; 20000; 100].
Proof.
  destruct fake_direct_completes as [direct Hd].
  destruct fake_grpc_completes as [grpc Hg].
  exists direct, grpc.
  exact (direct_suite_cases string string Fake.world Fake.world
           (Fake.ticking []) (Fake.ticking []) direct grpc Hd Hg).
Defined.

(** C1, as stated, fails: against the fake service the local suite
    completes, and its four cases run 5000, 200, 5000 and 100 iterations,
    not the 10000, 100, 20000 and 100 of the remote suite. *)
Lemma direct_iterations_counterexample :
  exists tr,
    run (env := Fake.world) benchmarkDirectSession (Fake.ticking []) = (inr tt, tr)
    /\ iterations (milestones tr) = [5000; 200; 5000; 100]
    /\ iterations (milestones tr) <> [10000; 100; 20000; 100].
Proof.
  destruct fake_direct_completes as [tr H]. exists tr.
  split; [exact H |].
  rewrite (direct_completed _ tr H).
  split; [reflexivity | discriminate].
Qed.


(** ** The reported median *)

Lemma mean2_between (a b : Q) :
  (a <= b)%Q -> (a <= mean [a; b])%Q /\ (mean [a; b] <= b)%Q.
Proof.
  intros Hab. unfold mean, Qdiv. simpl.
  change (/ inject_Z 2)%Q with (1 # 2)%Q. split; lra.
Qed.

(** The median of a non-empty list lies between two of its elements. *)
Lemma median_between (l : list Q) :
  l <> [] ->
  exists x lo hi,
    median l = Finite x /\ In lo l /\ In hi l /\ (lo <= x)%Q /\ (x <= hi)%Q.
Proof.
  intros Hl. destruct l as [| a l']; [contradiction Hl; reflexivity |].
  unfold median. set (l := a :: l'). set (n := List.length l).
  assert (Hperm : Permutation l (QSort.sort l)) by apply QSort.Permuted_sort.
  assert (Hlen : List.length (QSort.sort l) = n)
    by (symmetry; apply Permutation_length, Hperm).
  assert (Hn : (1 <= n)%nat) by (unfold n, l; simpl; lia).
  assert (Hin : forall k, (k < n)%nat -> In (nth k (QSort.sort l) 0%Q) l).
  { intros k Hk. apply (Permutation_in _ (Permutation_sym Hperm)).
    apply nth_In. rewrite Hlen. exact Hk. }
  assert (Hmid : (Nat.div n 2 < n)%nat) by (apply Nat.div_lt; lia).
  destruct (Nat.even n) eqn:Heven.
  - assert (Hmid1 : (Nat.div n 2 - 1 < n)%nat) by lia.
    set (p := nth (Nat.div n 2 - 1) (QSort.sort l) 0%Q).
    set (q := nth (Nat.div n 2) (QSort.sort l) 0%Q).
    destruct (Qlt_le_dec q p) as [Hqp | Hpq].
    + exists (mean [p; q]), q, p.
      assert (Hm : mean [p; q] == mean [q; p])
        by (unfold mean, Qdiv; simpl; change (/ inject_Z 2)%Q with (1 # 2)%Q; lra).
      destruct (mean2_between q p (Qlt_le_weak _ _ Hqp)) as [H1 H2].
      repeat split; [apply Hin, Hmid | apply Hin, Hmid1 | |]; rewrite Hm; assumption.
    + exists (mean [p; q]), p, q.
      destruct (mean2_between p q Hpq) as [H1 H2].
      repeat split; [apply Hin, Hmid1 | apply Hin, Hmid | |]; assumption.
  - exists (nth (Nat.div n 2) (QSort.sort l) 0%Q),
      (nth (Nat.div n 2) (QSort.sort l) 0%Q), (nth (Nat.div n 2) (QSort.sort l) 0%Q).
    repeat split; try (apply Hin, Hmid); apply Qle_refl.
Qed.

Lemma clock_readings_app {E : Type} (tr1 tr2 : trace E) :
  clock_readings (tr1 ++ tr2) = clock_readings tr1 ++ clock_readings tr2.
Proof. apply flat_map_app. Qed.

(** In a completed measurement the clock is read in the timed loop only,
    and the samples are those of the loop. *)
Lemma measure_clock {E : Type} {env : World E} (m : measurement)
    (name target : string) (size iters : Z) (w : state env) (u : unit) (tr : trace E) :
  run (measure m name target size iters) w = (inr u, tr) ->
  exists sess f feed (loop : trace E),
    timed_trace sess f feed (samples tr) loop
    /\ clock_readings tr = clock_readings loop.
Proof.
  intros H. destruct m; simpl measure in H.
  - apply feed_completes in H.
    destruct H as [a feed_val g p i s sess r ds loop line Hlen Ht Hline].
    exists sess, (FetchOp (op i)), [(p, feed_val)], loop.
    rewrite samples_before_clock by reflexivity.
    rewrite (timed_trace_samples _ _ _ _ _ _ Ht). cbn [samples]. rewrite app_nil_r.
    split; [exact Ht |]. rewrite !clock_readings_app. simpl. apply app_nil_r.
  - apply fetch_completes in H.
    destruct H as [g init v s sess r1 r2 ds loop line Hlen Ht Hline].
    exists sess, (FetchVar v), [], loop.
    rewrite samples_before_clock by reflexivity.
    rewrite (timed_trace_samples _ _ _ _ _ _ Ht). cbn [samples]. rewrite app_nil_r.
    split; [exact Ht |]. rewrite !clock_readings_app. simpl. apply app_nil_r.
Qed.

Lemma nondecreasing_tail (t : Q) (ts : list Q) :
  nondecreasing (t :: ts) -> nondecreasing ts.
Proof. destruct ts as [| t1 ts]; simpl; [trivial | intros [_ H]; exact H]. Qed.

(** Under a clock that does not run backwards no sample is negative. *)
Lemma timed_trace_nonnegative {E : Type} sess f feed (ds : list Q) (loop : trace E) :
  timed_trace sess f feed ds loop ->
  nondecreasing (clock_readings loop) ->
  Forall (fun d => 0 <= d)%Q ds.
Proof.
  induction 1 as [| t0 t1 r ds tr _ IH]; intros Hmono; [constructor |].
  change (nondecreasing (t0 :: t1 :: clock_readings tr)) in Hmono.
  destruct Hmono as [H01 Hrest]. constructor.
  - lra.
  - apply IH. apply (nondecreasing_tail t1), Hrest.
Qed.

(** X1.  A measurement asked for no iterations ([iters <= 0]) still makes
    its untimed [sess.run] calls, one for a feed and two for a fetch, but
    takes no sample: the median of the empty list is [nan], which is what
    it reports as [wall_time] and prints. *)
Theorem no_iterations_report_nan
    (E : Type) (env : World E) (m : measurement) (name target : string)
    (size iters : Z) (w : state env) (tr : trace E) :
  iters <= 0 ->
  run (measure m name target size iters) w = (inr tt, tr) ->
  samples tr = []
  /\ clock_readings tr = []
  /\ List.length (runs tr) = match m with Feed => 1 | Fetch => 2 end%nat
  /\ reports tr = [Report iters NaN name]
  /\ stdout tr = [(name ++ " " ++ str_d size ++ " nan")%string].
Proof.
  intros Hiters Hrun.
  destruct (measure_completed name target size iters m w tt tr Hrun) as (Hn & Hout & Hr & _).
  destruct (measure_untimed name target size iters m w tt tr Hrun) as (Hu & Hruns).
  destruct (measure_clock m name target size iters w tt tr Hrun)
    as (sess & f & feed & loop & Ht & Hclock).
  assert (Hs : samples tr = []).
  { apply length_zero_iff_nil. rewrite Hn. lia. }
  rewrite Hs in *. inversion Ht; subst.
  repeat split; try assumption. rewrite Hruns, Hu. reflexivity.
Qed.

Lemma no_iterations_report_nan_witness :
  let tr := snd (run (env := Fake.world) (measure Fetch "t" "" 8 (-3))
                     (Fake.ticking [0; 1]%Q)) in
  samples tr = []
  /\ clock_readings tr = []
  /\ List.length (runs tr) = 2%nat
  /\ reports tr = [Report (-3) NaN "t"]
  /\ stdout tr = [("t" ++ " " ++ str_d 8 ++ " nan")%string].
Proof.
  apply (no_iterations_report_nan string Fake.world Fetch "t" "" 8 (-3)
           (Fake.ticking [0; 1]%Q)).
  - lia.
  - vm_compute. reflexivity.
Defined.

(** X2.  A completed measurement with [iters >= 1] reports a number, not
    [nan], and that number is not below the smallest and not above the
    largest elapsed time it measured. *)
Theorem wall_time_between_samples
    (E : Type) (env : World E) (m : measurement) (name target : string)
    (size iters : Z) (w : state env) (tr : trace E) :
  1 <= iters ->
  run (measure m name target size iters) w = (inr tt, tr) ->
  exists x lo hi,
    reports tr = [Report iters (Finite x) name]
    /\ In lo (samples tr) /\ In hi (samples tr)
    /\ (lo <= x)%Q /\ (x <= hi)%Q.
Proof.
  intros Hiters Hrun.
  destruct (measure_completed name target size iters m w tt tr Hrun) as (Hn & _ & Hr & _).
  assert (Hne : samples tr <> []).
  { intros Hnil. rewrite Hnil in Hn. simpl in Hn. lia. }
  destruct (median_between (samples tr) Hne) as (x & lo & hi & Hx & Hlo & Hhi & H1 & H2).
  exists x, lo, hi. rewrite Hr, Hx. repeat split; assumption.
Qed.

Lemma wall_time_between_samples_witness :
  exists x lo hi,
    reports (snd (run (env := Fake.world) (measure Feed "t" "" 1 4)
                      (Fake.ticking [0; 1; 2; 5; 7; 8; 10; 14]%Q)))
    = [Report 4 (Finite x) "t"]
    /\ In lo (samples (snd (run (env := Fake.world) (measure Feed "t" "" 1 4)
                                (Fake.ticking [0; 1; 2; 5; 7; 8; 10; 14]%Q))))
    /\ In hi (samples (snd (run (env := Fake.world) (measure Feed "t" "" 1 4)
                                (Fake.ticking [0; 1; 2; 5; 7; 8; 10; 14]%Q))))
    /\ (lo <= x)%Q /\ (x <= hi)%Q.
Proof.
  apply (wall_time_between_samples string Fake.world Feed "t" "" 1 4
           (Fake.ticking [0; 1; 2; 5; 7; 8; 10; 14]%Q)).
  - lia.
  - vm_compute. reflexivity.
Defined.

(** X3.  When the clock does not run backwards during a completed
    measurement with [iters >= 1], no sample is negative and the reported
    [wall_time] is a non-negative number. *)
Theorem wall_time_nonnegative
    (E : Type) (env : World E) (m : measurement) (name target : string)
    (size iters : Z) (w : state env) (tr : trace E) :
  1 <= iters ->
  run (measure m name target size iters) w = (inr tt, tr) ->
  nondecreasing (clock_readings tr) ->
  Forall (fun d => 0 <= d)%Q (samples tr)
  /\ exists x, reports tr = [Report iters (Finite x) name] /\ (0 <= x)%Q.
Proof.
  intros Hiters Hrun Hmono.
  destruct (measure_completed name target size iters m w tt tr Hrun) as (Hn & _ & Hr & _).
  destruct (measure_clock m name target size iters w tt tr Hrun)
    as (sess & f & feed & loop & Ht & Hclock).
  rewrite Hclock in Hmono.
  pose proof (timed_trace_nonnegative sess f feed _ loop Ht Hmono) as Hpos.
  split; [exact Hpos |].
  assert (Hne : samples tr <> []).
  { intros Hnil. rewrite Hnil in Hn. simpl in Hn. lia. }
  destruct (median_between (samples tr) Hne) as (x & lo & hi & Hx & Hlo & _ & H1 & _).
  exists x. rewrite Hr, Hx. split; [reflexivity |].
  rewrite Forall_forall in Hpos. apply Qle_trans with lo; [apply Hpos, Hlo | exact H1].
Qed.

Lemma wall_time_nonnegative_witness :
  Forall (fun d => 0 <= d)%Q
    (samples (snd (run (env := Fake.world) (measure Fetch "t" "" 1 2)
                       (Fake.ticking [3; 3; 4; 9]%Q))))
  /\ exists x,
       reports (snd (run (env := Fake.world) (measure Fetch "t" "" 1 2)
                         (Fake.ticking [3; 3; 4; 9]%Q)))
       = [Report 2 (Finite x) "t"] /\ (0 <= x)%Q.
Proof.
  apply (wall_time_nonnegative string Fake.world Fetch "t" "" 1 2
           (Fake.ticking [3; 3; 4; 9]%Q)).
  - lia.
  - vm_compute. reflexivity.
  - vm_compute. repeat split; discriminate.
Defined.

(** ** Scopes *)

Section ScopeFacts.

Context {E : Type} {env : World E}.

Lemma scopes_app (tr1 tr2 : trace E) : scopes (tr1 ++ tr2) = scopes tr1 ++ scopes tr2.
Proof. apply flat_map_app. Qed.

Lemma timed_trace_scopes sess f feed (ds : list Q) (tr : trace E) :
  timed_trace sess f feed ds tr -> scopes tr = repeat (Ran sess) (List.length ds).
Proof.
  induction 1 as [| t0 t1 r ds tr _ IH]; [reflexivity |].
  simpl. f_equal. exact IH.
Qed.

Lemma cut_short_scopes sess f feed (e : E) (tr : trace E) :
  cut_short sess f feed e tr -> exists k, scopes tr = repeat (Ran sess) k.
Proof.
  destruct 1; [exists 0%nat | exists 1%nat | exists 1%nat]; reflexivity.
Qed.

(** However the timed loop ends, it only runs the session. *)
Lemma iterate_scopes sess f feed n times (w : state env) :
  match iterate n (timed_run sess f feed) times w with
  | (_, _, tr) => exists k, scopes tr = repeat (Ran sess) k
  end.
Proof.
  pose proof (iterate_outcome sess f feed n times w) as H.
  destruct (iterate n (timed_run sess f feed) times w) as [[[x | times'] w'] tr].
  - destruct H as (e & ds & tr1 & tr2 & _ & -> & Ht & Hc).
    destruct (cut_short_scopes _ _ _ _ _ Hc) as [k Hk].
    exists (List.length ds + k)%nat.
    rewrite scopes_app, (timed_trace_scopes _ _ _ _ _ Ht), Hk. symmetry. apply repeat_app.
  - destruct H as (ds & _ & _ & Ht). exists (List.length ds).
    apply (timed_trace_scopes _ _ _ _ _ Ht).
Qed.

(** Case analysis on the timed loop, keeping only what it shows of the
    scopes. *)
Ltac loop_scopes :=
  match goal with
  | |- context [iterate ?n (timed_run ?s ?f ?fd) ?t ?w] =>
      let H := fresh "Hscopes" in
      pose proof (iterate_scopes s f fd n t w) as H;
      destruct (iterate n (timed_run s f fd) t w) as [[[? | ?] ?] ?];
      destruct H as [k H]; cbv beta iota
  end.

(** Decides which of the three shapes the scopes of a trace have. *)
Ltac scoped :=
  cbn [snd]; unfold well_scoped; rewrite ?scopes_app;
  repeat match goal with H : scopes _ = repeat _ _ |- _ => rewrite H; clear H end;
  cbn [scopes flat_map scope_of app]; rewrite <- ?app_assoc; cbn [app];
  first
    [ left; reflexivity
    | right; left; eexists; reflexivity
    | right; right; do 3 eexists;
      first
        [ exists 0%nat; reflexivity
        | exists 1%nat; reflexivity
        | exists 2%nat; reflexivity
        | match goal with
          | k : nat |- _ =>
              first [ exists (S k); reflexivity | exists (S (S k)); reflexivity ]
          end ] ].

(** Runs the calls that are left after the timed loop. *)
Ltac finish_scoped :=
  repeat answer;
  try (unfold print; rewrite format_line; unfold output; repeat answer);
  try (unfold report_benchmark, output; repeat answer);
  scoped.

Lemma feed_well_scoped name target size iters (w : state env) :
  well_scoped (snd (run (_benchmarkFeed name target size iters) w)).
Proof.
  unfold run, _benchmarkFeed, bind, with_, ext, for_xrange, raise.
  do 9 (answer; [repeat answer; scoped |]).
  ranged; [| repeat answer; scoped].
  loop_scopes; finish_scoped.
Qed.

Lemma fetch_well_scoped name target size iters (w : state env) :
  well_scoped (snd (run (_benchmarkFetch name target size iters) w)).
Proof.
  unfold run, _benchmarkFetch, bind, with_, ext, for_xrange, raise.
  do 8 (answer; [repeat answer; scoped |]).
  ranged; [| repeat answer; scoped].
  loop_scopes; finish_scoped.
Qed.

End ScopeFacts.

(** ** Further properties of the measurements *)

(** X4.  Every measurement, however it ends, leaves its [with] blocks
    properly: a context whose [__enter__] completed is left by exactly one
    [__exit__], also when a call in between raised; the session is entered
    inside the graph and left before it; and every [sess.run] is made
    between the two, on the session that [__enter__] returned. *)
Theorem measurement_well_scoped
    (E : Type) (env : World E) (m : measurement) (name target : string)
    (size iters : Z) (w : state env) :
  well_scoped (snd (run (measure m name target size iters) w)).
Proof.
  destruct m; simpl measure; [apply feed_well_scoped | apply fetch_well_scoped].
Qed.

(** X5.  A completed measurement prints and reports only after it has left
    the session and the graph: its last four events are the two [__exit__]
    calls, the line and the record; all its [sess.run] calls come before
    them, and nothing is printed or reported earlier. *)
Theorem results_after_release
    (E : Type) (env : World E) (m : measurement) (name target : string)
    (size iters : Z) (w : state env) (tr : trace E) :
  run (measure m name target size iters) w = (inr tt, tr) ->
  exists before s g line r,
    tr = before ++ [Called (Session_exit s) (inr tt);
                    Called (as_default_exit g) (inr tt);
                    Printed line;
                    Reported r]
    /\ stdout before = [] /\ reports before = []
    /\ runs before = runs tr.
Proof.
  intros H. destruct m; simpl measure in H.
  - apply feed_completes in H.
    destruct H as [a feed_val g p i s sess r ds loop line Hlen Ht Hline].
    destruct (timed_trace_quiet _ _ _ _ _ Ht) as (H1 & H2 & _).
    eexists (_ ++ loop), s, g, line, _. rewrite <- app_assoc.
    split; [reflexivity |].
    rewrite !stdout_app, !reports_app, !runs_app, H1, H2.
    repeat split. simpl. rewrite !app_nil_r. reflexivity.
  - apply fetch_completes in H.
    destruct H as [g init v s sess r1 r2 ds loop line Hlen Ht Hline].
    destruct (timed_trace_quiet _ _ _ _ _ Ht) as (H1 & H2 & _).
    eexists (_ ++ loop), s, g, line, _. rewrite <- app_assoc.
    split; [reflexivity |].
    rewrite !stdout_app, !reports_app, !runs_app, H1, H2.
    repeat split. simpl. rewrite !app_nil_r. reflexivity.
Qed.

Lemma results_after_release_witness :
  exists before s g line r,
    snd (run (env := Fake.world) (measure Feed "t" "" 1 2) (Fake.ticking []))
    = before ++ [Called (Session_exit s) (inr tt);
                 Called (as_default_exit g) (inr tt);
                 Printed line;
                 Reported r]
    /\ stdout before = [] /\ reports before = []
    /\ runs before
       = runs (snd (run (env := Fake.world) (measure Feed "t" "" 1 2)
                        (Fake.ticking []))).
Proof.
  apply (results_after_release string Fake.world Feed "t" "" 1 2 (Fake.ticking [])).
  vm_compute. reflexivity.
Defined.

(** X6.  A completed [_benchmarkFeed] builds a placeholder of shape
    [[size]], the size it asked [np.random.rand] for, and the identity of
    that placeholder; what every [sess.run] fetches is the operation of
    that identity, not its output tensor, and what it feeds is that
    placeholder. *)
Theorem feed_fetches_identity_op
    (E : Type) (env : World E) (name target : string) (size iters : Z)
    (w : state env) (tr : trace E) :
  run (_benchmarkFeed name target size iters) w = (inr tt, tr) ->
  exists a feed_val p i sess,
    In (Called (np_random_rand size) (inr a)) tr
    /\ In (Called (tf_placeholder [size]) (inr p)) tr
    /\ In (Called (tf_identity p) (inr i)) tr
    /\ Forall (eq (sess, FetchOp (op i), [(p, feed_val)])) (runs tr).
Proof.
  intros H. apply feed_completes in H.
  destruct (feed_completed_runs name target size iters tr H)
    as (a' & feed_val' & p' & i' & sess' & rest' & _ & _ & _ & _ & Hr).
  destruct H as [a feed_val g p i s sess r ds loop line Hlen Ht Hline].
  exists a, feed_val, p, i, sess.
  repeat split; try (apply in_or_app; left; simpl; tauto).
  rewrite runs_app in Hr. simpl in Hr. injection Hr as Hsess Hop Hfeed _.
  rewrite !runs_app, (timed_trace_runs _ _ _ _ _ Ht). simpl.
  constructor; [reflexivity |]. rewrite app_nil_r.
  apply Forall_forall. intros x Hx. apply repeat_spec in Hx. symmetry. exact Hx.
Qed.

Lemma feed_fetches_identity_op_witness :
  exists a feed_val p i sess,
    In (Called (np_random_rand 4) (inr a))
       (snd (run (env := Fake.world) (_benchmarkFeed "feed" "" 4 2) (Fake.ticking [])))
    /\ In (Called (tf_placeholder [4]) (inr p))
          (snd (run (env := Fake.world) (_benchmarkFeed "feed" "" 4 2) (Fake.ticking [])))
    /\ In (Called (tf_identity p) (inr i))
          (snd (run (env := Fake.world) (_benchmarkFeed "feed" "" 4 2) (Fake.ticking [])))
    /\ Forall (eq (sess, FetchOp (op i), [(p, feed_val)]))
         (runs (snd (run (env := Fake.world) (_benchmarkFeed "feed" "" 4 2)
                         (Fake.ticking [])))).
Proof.
  apply (feed_fetches_identity_op string Fake.world "feed" "" 4 2 (Fake.ticking [])).
  vm_compute. reflexivity.
Defined.

(** X7.  A completed [_benchmarkFetch] generates no payload and feeds
    nothing: it makes a variable from [tf.random_normal([size])], runs the
    initializer of that variable once, first, and then fetches the variable
    itself [iters + 1] times, every time with an empty feed. *)
Theorem fetch_feeds_nothing
    (E : Type) (env : World E) (name target : string) (size iters : Z)
    (w : state env) (tr : trace E) :
  run (_benchmarkFetch name target size iters) w = (inr tt, tr) ->
  exists init v sess,
    In (Called (tf_random_normal [size]) (inr init)) tr
    /\ In (Called (tf_Variable init) (inr v)) tr
    /\ generations tr = []
    /\ runs tr = (sess, FetchOp (initializer v), [])
                   :: repeat (sess, FetchVar v, []) (S (Z.to_nat iters)).
Proof.
  intros H. apply fetch_completes in H.
  destruct H as [g init v s sess r1 r2 ds loop line Hlen Ht Hline].
  destruct (timed_trace_quiet _ _ _ _ _ Ht) as (_ & _ & _ & _ & Hg).
  exists init, v, sess.
  repeat split; try (apply in_or_app; left; simpl; tauto).
  - rewrite !generations_app, Hg. reflexivity.
  - rewrite !runs_app, (timed_trace_runs _ _ _ _ _ Ht), Hlen. simpl.
    rewrite app_nil_r. reflexivity.
Qed.

Lemma fetch_feeds_nothing_witness :
  exists init v sess,
    In (Called (tf_random_normal [4]) (inr init))
       (snd (run (env := Fake.world) (_benchmarkFetch "fetch" "" 4 2) (Fake.ticking [])))
    /\ In (Called (tf_Variable init) (inr v))
          (snd (run (env := Fake.world) (_benchmarkFetch "fetch" "" 4 2) (Fake.ticking [])))
    /\ generations
         (snd (run (env := Fake.world) (_benchmarkFetch "fetch" "" 4 2) (Fake.ticking [])))
       = []
    /\ runs (snd (run (env := Fake.world) (_benchmarkFetch "fetch" "" 4 2)
                      (Fake.ticking [])))
       = (sess, FetchOp (initializer v), [])
           :: repeat (sess, FetchVar v, []) (S (Z.to_nat 2)).
Proof.
  apply (fetch_feeds_nothing string Fake.world "fetch" "" 4 2 (Fake.ticking [])).
  vm_compute. reflexivity.
Defined.

(** ** Further properties of the suites *)

Lemma benchmarks_reports {E : Type} (tr : trace E) :
  benchmarks (milestones tr) = map (fun r => (iters r, name r)) (reports tr).
Proof.
  induction tr as [| ev tr IH]; [reflexivity |].
  change (ev :: tr) with ([ev] ++ tr).
  rewrite milestones_app, reports_app, map_app. unfold benchmarks in *.
  rewrite flat_map_app, IH. f_equal.
  destruct ev as [X c r | line | r]; try reflexivity. destruct c; reflexivity.
Qed.

(** Case analysis on the length [k] of a prefix of at most [n] milestones. *)
Tactic Notation "by_prefix" integer(n) tactic3(tac) :=
  do n (match goal with
        | k : nat |- _ => destruct k as [| k]; [cbn [firstn]; tac |]
        end);
  cbn [firstn]; rewrite ?firstn_nil; tac.

(** X8.  [benchmarkDirectSession] never resets a target and opens no
    session on anything but the empty target, in every run, completed or
    cut off. *)
Theorem direct_never_resets (E : Type) (env : World E) (w : state env) :
  resets (milestones (snd (run (benchmarkDirectSession (env := env)) w))) = []
  /\ Forall (eq "") (targets (milestones (snd (run (benchmarkDirectSession (env := env)) w)))).
Proof.
  pose proof (direct_outcome w) as Ho.
  destruct (run (benchmarkDirectSession (env := env)) w) as [[x | u] tr]; cbn [snd].
  - destruct Ho as [k ->]. unfold direct_milestones.
    by_prefix 12 (split; [reflexivity | repeat constructor]).
  - rewrite Ho. split; [reflexivity | repeat constructor].
Qed.

(** X9.  [benchmarkDirectSession] stops at the first case that fails: a
    completed run has reported its four cases, in the order of the source,
    with 5000, 200, 5000 and 100 iterations; a run that ends with an
    exception has reported fewer than four, the first ones in that
    order. *)
Theorem direct_stops_at_first_failure (E : Type) (env : World E) (w : state env) :
  match run (benchmarkDirectSession (env := env)) w with
  | (inr _, tr) =>
      map (fun r => (iters r, name r)) (reports tr)
      = [(5000, "benchmark_session_feed_direct_4B");
         (200, "benchmark_session_feed_direct_4MB");
         (5000, "benchmark_session_fetch_direct_4B");
         (100, "benchmark_session_fetch_direct_4MB")]
  | (inl _, tr) =>
      exists n, (n < 4)%nat
        /\ map (fun r => (iters r, name r)) (reports tr)
           = firstn n [(5000, "benchmark_session_feed_direct_4B");
                       (200, "benchmark_session_feed_direct_4MB");
                       (5000, "benchmark_session_fetch_direct_4B");
                       (100, "benchmark_session_fetch_direct_4MB")]
  end.
Proof.
  pose proof (direct_cut_off w) as Ho.
  destruct (run (benchmarkDirectSession (env := env)) w) as [[x | u] tr];
    rewrite <- benchmarks_reports.
  - destruct Ho as (k & Hk & ->). unfold direct_milestones.
    by_prefix 12
      (first [ exists 0%nat; split; [lia | reflexivity]
             | exists 1%nat; split; [lia | reflexivity]
             | exists 2%nat; split; [lia | reflexivity]
             | exists 3%nat; split; [lia | reflexivity]
             | exfalso; lia ]).
  - rewrite Ho. reflexivity.
Qed.

(** X10.  In every run of [benchmarkGrpcSession], completed or cut off, a
    reset is called only after a case that has reported: the resets called
    never outnumber the records reported, and at most one reported case is
    not yet followed by a reset.  A case that fails is followed by no
    reset. *)
Theorem grpc_resets_follow_reports (E : Type) (env : World E) (w : state env) :
  (List.length (resets (milestones (snd (run (benchmarkGrpcSession (env := env)) w))))
   <= List.length (reports (snd (run (benchmarkGrpcSession (env := env)) w))))%nat
  /\ (List.length (reports (snd (run (benchmarkGrpcSession (env := env)) w)))
      <= S (List.length
              (resets (milestones (snd (run (benchmarkGrpcSession (env := env)) w))))))%nat.
Proof.
  pose proof (grpc_outcome w) as Ho.
  destruct (run (benchmarkGrpcSession (env := env)) w) as [[x | u] tr]; cbn [snd];
    rewrite <- (length_map (fun r => (iters r, name r)) (reports tr)),
      <- benchmarks_reports.
  - destruct Ho as (t & k & ->). unfold grpc_milestones.
    by_prefix 16 (simpl; lia).
  - destruct Ho as (srv & rest & -> & Hm).
    change (milestones (Called create_local_server (inr srv) :: rest))
      with (milestones rest).
    rewrite Hm. simpl. lia.
Qed.

(** X11.  [benchmarkGrpcSession] creates its server first.  If that call
    raises, nothing else is done.  Otherwise every session the suite opens
    and every reset it calls, in a completed run and in one that is cut
    off, names the target of that server. *)
Theorem grpc_uses_server_target (E : Type) (env : World E) (w : state env) :
  (exists e,
      snd (run (benchmarkGrpcSession (env := env)) w)
      = [Called create_local_server (inl e)])
  \/ exists srv rest,
       snd (run (benchmarkGrpcSession (env := env)) w)
       = Called create_local_server (inr srv) :: rest
       /\ Forall (eq (target srv)) (targets (milestones rest))
       /\ Forall (eq (target srv)) (resets (milestones rest)).
Proof.
  pose proof (grpc_on_server w) as Ho.
  destruct (run (benchmarkGrpcSession (env := env)) w) as [r tr]; cbn [snd].
  destruct Ho as [[e ->] | (srv & rest & -> & k & Hk)].
  - left. exists e. reflexivity.
  - right. exists srv, rest. split; [reflexivity |]. rewrite Hk.
    unfold grpc_milestones.
    by_prefix 16 (split; repeat constructor).
Qed.
